(** * MetricsListener: a shallow embedding of src/MetricsListener.js

    The listener polls host statistics in the background, keeps the last
    adopted snapshot per metric family, and serves the cached values over a
    handful of HTTP routes.  The JavaScript class is modelled by explicit
    state passing: the instance fields form a record, every callback of the
    promise chains and timers is a function from the record to the record
    plus the commands it hands to the runtime (asynchronous calls, timers),
    and the Node event loop is a small transition system that settles the
    pending calls and fires the timers in any order. *)

From Stdlib Require Import ZArith List String Ascii Bool Lia Arith.
From Stdlib Require Import DecimalString.
From Stdlib Require Import Floats.PrimFloat Floats.SpecFloat Floats.FloatOps.
Import ListNotations.

Set Warnings "-register-all".

Local Open Scope string_scope.
Local Open Scope Z_scope.

(** ** JavaScript values *)

(** Numbers are IEEE-754 doubles, carried as primitive floats.  Objects keep
    their properties in insertion order, which is the order JSON.stringify
    walks them in. *)
Inductive JsVal : Type :=
| JUndefined
| JNull
| JBool (b : bool)
| JNum (f : float)
| JStr (s : string)
| JArr (items : list JsVal)
| JObj (props : list (string * JsVal)).

Definition JsObj : Type := list (string * JsVal).

(** ToBoolean: what [if (v)], [!v] and [v || d] test. *)
Definition truthy (v : JsVal) : bool :=
  match v with
  | JUndefined | JNull => false
  | JBool b => b
  | JNum f => negb (PrimFloat.eqb f 0%float) && PrimFloat.eqb f f
  | JStr s => negb (String.eqb s "")
  | JArr _ | JObj _ => true
  end.

(** [o[k]] on a plain object. *)
Fixpoint get_prop (o : JsObj) (k : string) : JsVal :=
  match o with
  | [] => JUndefined
  | (k', v) :: rest => if String.eqb k' k then v else get_prop rest k
  end.

(** [o[k] = v]: an existing property keeps its place, a new one goes last. *)
Fixpoint set_prop (o : JsObj) (k : string) (v : JsVal) : JsObj :=
  match o with
  | [] => [(k, v)]
  | (k', v') :: rest =>
      if String.eqb k' k then (k', v) :: rest else (k', v') :: set_prop rest k v
  end.

(** Number.isInteger and the integer a double denotes. *)
Definition Number_isInteger (v : JsVal) : bool :=
  match v with
  | JNum f =>
      match Prim2SF f with
      | S754_zero _ => true
      | S754_finite _ m e =>
          if 0 <=? e then true else (Z.pos m mod 2 ^ (- e) =? 0)
      | _ => false
      end
  | _ => false
  end.

Definition Z_of_float (f : float) : Z :=
  match Prim2SF f with
  | S754_finite s m e =>
      (if s then -1 else 1) *
      (if 0 <=? e then Z.pos m * 2 ^ e else Z.pos m / 2 ^ (- e))
  | _ => 0
  end.

(** The counters of the listener start at 0 and only ever go up by [++].  On
    a double, [n + 1] is exact below 2^53 and rounds back to 2^53 there. *)
Definition MAX_EXACT : Z := 2 ^ 53.

Definition js_incr (n : Z) : Z := if n <? MAX_EXACT then n + 1 else n.
Arguments js_incr : simpl never.

(** Template-literal rendering of a counter: an integer double below 10^21
    prints in plain decimal. *)
Definition counter_to_string (n : Z) : string :=
  NilZero.string_of_int (Z.to_int n).

(** String.prototype.endsWith / startsWith.  Strings are byte strings here;
    the only character the code looks for is the ASCII slash. *)
Definition endsWith (s suffix : string) : bool :=
  (String.length suffix <=? String.length s)%nat &&
  String.eqb
    (substring (String.length s - String.length suffix) (String.length suffix) s)
    suffix.

Definition startsWith (s pre : string) : bool := String.prefix pre s.

(** The double-quote character, code 34. *)
Definition dquote : string := String (ascii_of_nat 34) EmptyString.

(** ** Constructor arguments *)

Definition DEFAULT_PATH_PREFIX : string := "/metrics".
Definition DEFAULT_INTERVAL : Z := 1000.

(** [while (apiPath.endsWith('/')) apiPath = apiPath.substring(0, apiPath.length - 1)].
    Every turn of the loop shortens the string, so its length is fuel enough
    (see [strip_loop_exits]). *)
Fixpoint strip_loop (fuel : nat) (apiPath : string) : string :=
  match fuel with
  | O => apiPath
  | S fuel' =>
      if endsWith apiPath "/"
      then strip_loop fuel' (substring 0 (String.length apiPath - 1) apiPath)
      else apiPath
  end.

Definition strip_trailing_slashes (apiPath : string) : string :=
  strip_loop (String.length apiPath) apiPath.

(** Lines 13-19 of the constructor.  [None] is the TypeError of calling
    [endsWith] on a truthy value that is not a string. *)
Definition normalizeApiPath (apiPath : JsVal) : option string :=
  let apiPath := if truthy apiPath then apiPath else JStr DEFAULT_PATH_PREFIX in
  match apiPath with
  | JStr s =>
      let s := strip_trailing_slashes s in
      Some (if String.eqb s "" then DEFAULT_PATH_PREFIX else s)
  | _ => None
  end.

(** Lines 21-23. *)
Definition normalizeInterval (interval : JsVal) : Z :=
  match interval with
  | JNum f =>
      if negb (Number_isInteger interval) || (Z_of_float f <? 1)
      then DEFAULT_INTERVAL
      else Z_of_float f
  | _ => DEFAULT_INTERVAL
  end.

(** ** The instance *)

Record Listener : Type := mkListener {
  apiPath          : string;
  interval         : Z;
  requestCount     : Z;
  lastCpuData      : JsObj;
  lastNetworkData  : JsObj;
  lastCpuError     : JsVal;
  lastNetworkError : JsVal;
  cpuIntervals     : Z;
  networkIntervals : Z
}.

Definition set_requestCount (n : Z) (this : Listener) : Listener :=
  mkListener (apiPath this) (interval this) n (lastCpuData this)
    (lastNetworkData this) (lastCpuError this) (lastNetworkError this)
    (cpuIntervals this) (networkIntervals this).

Definition set_lastCpuData (d : JsObj) (this : Listener) : Listener :=
  mkListener (apiPath this) (interval this) (requestCount this) d
    (lastNetworkData this) (lastCpuError this) (lastNetworkError this)
    (cpuIntervals this) (networkIntervals this).

Definition set_lastNetworkData (d : JsObj) (this : Listener) : Listener :=
  mkListener (apiPath this) (interval this) (requestCount this)
    (lastCpuData this) d (lastCpuError this) (lastNetworkError this)
    (cpuIntervals this) (networkIntervals this).

Definition set_lastCpuError (e : JsVal) (this : Listener) : Listener :=
  mkListener (apiPath this) (interval this) (requestCount this)
    (lastCpuData this) (lastNetworkData this) e (lastNetworkError this)
    (cpuIntervals this) (networkIntervals this).

Definition set_lastNetworkError (e : JsVal) (this : Listener) : Listener :=
  mkListener (apiPath this) (interval this) (requestCount this)
    (lastCpuData this) (lastNetworkData this) (lastCpuError this) e
    (cpuIntervals this) (networkIntervals this).

Definition set_cpuIntervals (n : Z) (this : Listener) : Listener :=
  mkListener (apiPath this) (interval this) (requestCount this)
    (lastCpuData this) (lastNetworkData this) (lastCpuError this)
    (lastNetworkError this) n (networkIntervals this).

Definition set_networkIntervals (n : Z) (this : Listener) : Listener :=
  mkListener (apiPath this) (interval this) (requestCount this)
    (lastCpuData this) (lastNetworkData this) (lastCpuError this)
    (lastNetworkError this) (cpuIntervals this) n.

Definition defaultCpuData : JsObj :=
  [ ("dateCaptured",           JNum 0%float);
    ("avgload",                JNum 0%float);
    ("currentload",            JNum 0%float);
    ("currentload_user",       JNum 0%float);
    ("currentload_system",     JNum 0%float);
    ("currentload_nice",       JNum 0%float);
    ("currentload_idle",       JNum 100%float);
    ("currentload_irq",        JNum 0%float);
    ("raw_currentload",        JNum 0%float);
    ("raw_currentload_user",   JNum 0%float);
    ("raw_currentload_system", JNum 0%float);
    ("raw_currentload_nice",   JNum 0%float);
    ("raw_currentload_idle",   JNum 0%float);
    ("raw_currentload_irq",    JNum 0%float);
    ("cpus",                   JArr []) ].

Definition defaultNetworkData : JsObj :=
  [ ("dateCaptured", JNum 0%float);
    ("iface",        JStr "unknown");
    ("operstate",    JStr "unknown");
    ("rx",           JNum 0%float);
    ("tx",           JNum 0%float);
    ("rx_sec",       JNum (-1)%float);
    ("tx_sec",       JNum (-1)%float);
    ("ms",           JNum 0%float) ].

Definition _initializeDefaults (this : Listener) : Listener :=
  let this := set_requestCount 0 this in
  let this := set_lastCpuData defaultCpuData this in
  let this := set_lastNetworkData defaultNetworkData this in
  let this := set_lastCpuError JNull this in
  set_lastNetworkError JNull this.

(** ** What the callbacks ask of the runtime *)

(** An asynchronous call in flight, named by the continuation that waits for
    it: the seed [currentLoad()] of [_initCpuMonitoring], the [currentLoad()]
    of an interval tick, [networkInterfaceDefault()], the seed and the tick
    [networkStats(nic)], and the [mem()] of the memory route. *)
Inductive Pending : Type :=
| PCpuSeed
| PCpuTick
| PNetIface
| PNetSeed (nic : string)
| PNetTick (nic : string)
| PMem.

Inductive TimerCb : Type :=
| TCpuTick
| TNetTick (nic : string)
| TNetRetry.

Inductive Cmd : Type :=
| Invoke (p : Pending)
| SetInterval (cb : TimerCb) (ms : Z)
| SetTimeout (cb : TimerCb) (ms : Z).

(** How a promise settles. *)
Inductive Settled (A : Type) : Type :=
| Resolved (v : A)
| Rejected (e : JsVal).
Arguments Resolved {A} v.
Arguments Rejected {A} e.

(** ** Background sampling (lines 69-160) *)

(** The statistics calls resolve with a plain object and
    [networkInterfaceDefault] with the interface name; a rejection carries
    any value.  [now] is the reading of [Moment.utc().unix()] taken when a
    sample is adopted. *)

Definition _initCpuMonitoring (this : Listener) : Listener * list Cmd :=
  (set_cpuIntervals 0 this, [Invoke PCpuSeed]).

(** The chain [.then(count).catch(record).then(start the interval)] that
    hangs off the seed call. *)
Definition cpuSeedDone (this : Listener) (r : Settled JsObj)
  : Listener * list Cmd :=
  let this :=
    match r with
    | Resolved _ignoreFirst => set_cpuIntervals (js_incr (cpuIntervals this)) this
    | Rejected error => set_lastCpuError error this
    end in
  (this, [SetInterval TCpuTick (interval this)]).

Definition cpuTimer (this : Listener) : Listener * list Cmd :=
  (this, [Invoke PCpuTick]).

Definition cpuTickDone (this : Listener) (r : Settled JsObj) (now : float)
  : Listener * list Cmd :=
  match r with
  | Resolved stats =>
      let n := js_incr (cpuIntervals this) in
      let this := set_cpuIntervals n this in
      if 1 <? n then
        let stats := set_prop stats "dateCaptured" (JNum now) in
        let this := set_lastCpuData stats this in
        (set_lastCpuError JNull this, [])
      else (this, [])
  | Rejected error => (set_lastCpuError error this, [])
  end.

Definition _initNetworkMonitoring (this : Listener) : Listener * list Cmd :=
  (set_networkIntervals 0 this, [Invoke PNetIface]).

Definition netIfaceDone (this : Listener) (r : Settled string)
  : Listener * list Cmd :=
  match r with
  | Resolved nic => (this, [Invoke (PNetSeed nic)])
  | Rejected error =>
      (set_lastNetworkError error this, [SetTimeout TNetRetry 1000])
  end.

Definition netRetryTimer (this : Listener) : Listener * list Cmd :=
  _initNetworkMonitoring this.

Definition netSeedDone (this : Listener) (nic : string) (r : Settled JsObj)
  : Listener * list Cmd :=
  let this :=
    match r with
    | Resolved _ignoreFirst =>
        set_networkIntervals (js_incr (networkIntervals this)) this
    | Rejected error => set_lastNetworkError error this
    end in
  (this, [SetInterval (TNetTick nic) (interval this)]).

Definition netTimer (this : Listener) (nic : string) : Listener * list Cmd :=
  (this, [Invoke (PNetTick nic)]).

(** The tick's promise has a [then] and nothing else: a rejection reaches no
    callback of the listener. *)
Definition netTickDone (this : Listener) (r : Settled JsObj) (now : float)
  : Listener * list Cmd :=
  match r with
  | Resolved stats =>
      let n := js_incr (networkIntervals this) in
      let this := set_networkIntervals n this in
      if 1 <? n then
        let stats := set_prop stats "dateCaptured" (JNum now) in
        let this := set_lastNetworkData stats this in
        (set_lastNetworkError JNull this, [])
      else (this, [])
  | Rejected _ => (this, [])
  end.

(** ** Requests and responses *)

(** The request object: the URL read from it and the marker written to it. *)
Record Request : Type := mkRequest {
  url            : string;
  requestHandled : JsVal
}.

(** The response object is the server's; what the listener does to it is the
    sequence of its property writes and method calls, oldest first. *)
Inductive ResOp : Type :=
| SetStatusCode (code : Z)
| SetHeader (name value : string)
| End (body : option string).

Definition Response : Type := list ResOp.

Fixpoint statusCode_of (res : Response) : option Z :=
  match res with
  | [] => None
  | op :: rest =>
      match statusCode_of rest, op with
      | Some c, _ => Some c
      | None, SetStatusCode c => Some c
      | None, _ => None
      end
  end.

Fixpoint header_of (name : string) (res : Response) : option string :=
  match res with
  | [] => None
  | op :: rest =>
      match header_of name rest, op with
      | Some v, _ => Some v
      | None, SetHeader n v => if String.eqb n name then Some v else None
      | None, _ => None
      end
  end.

(** The bodies handed to [res.end], oldest first. *)
Fixpoint ended_with (res : Response) : list (option string) :=
  match res with
  | [] => []
  | End b :: rest => b :: ended_with rest
  | _ :: rest => ended_with rest
  end.

Section Router.

(** Library functions the listener calls and does not define:
    [urlParse(u).pathname] (a string, or null, here [None], for a target
    without a path such as x://h), [JSON.stringify] (which yields undefined,
    here [None], on undefined), and the string conversion of a template
    literal. *)
Variable urlParse_pathname : string -> option string.
Variable JSON_stringify : JsVal -> option string.
Variable ToString : JsVal -> string.

Definition encode_body (stat : JsVal) : option string :=
  match stat with
  | JStr s => Some s
  | _ => JSON_stringify stat
  end.

Definition successResponse (res : Response) (stat : JsVal) : Response :=
  (res ++ [SetStatusCode 200;
           SetHeader "Content-Type" "application/json";
           End (encode_body stat)])%list.

Definition errorResponse (res : Response) (error : JsVal) : Response :=
  (res ++ [SetStatusCode 500;
           SetHeader "Content-Type" "application/json";
           End (encode_body error)])%list.

(** The template literal whose text is: brace, quoted word metric, colon,
    space, the rendered value, brace. *)
Definition metric_json (rendered : string) : string :=
  "{" ++ dquote ++ "metric" ++ dquote ++ ": " ++ rendered ++ "}".

(** Lines 167-237: the body of the arrow function for a pathname that is a
    string. *)
Definition dispatch (this : Listener) (pathname : string)
    (req : Request) (res : Response)
  : Listener * Request * Response * list Cmd :=
  if negb (String.eqb pathname (apiPath this)) &&
     negb (startsWith pathname (apiPath this ++ "/"))
  then
    (set_requestCount (js_incr (requestCount this)) this, req, res, [])
  else
    let req := mkRequest (url req) (JBool true) in
    if String.eqb pathname (apiPath this ++ "/health") then
      (this, req, (res ++ [SetStatusCode 200; End (Some "ok")])%list, [])
    else if String.eqb pathname (apiPath this ++ "/requests/total") then
      (this, req,
       successResponse res
         (JStr (metric_json (counter_to_string (requestCount this)))), [])
    else if String.eqb pathname (apiPath this ++ "/cpu") then
      if truthy (lastCpuError this)
      then (this, req, errorResponse res (lastCpuError this), [])
      else (this, req, successResponse res (JObj (lastCpuData this)), [])
    else if String.eqb pathname (apiPath this ++ "/memory") then
      (this, req, res, [Invoke PMem])
    else if String.eqb pathname (apiPath this ++ "/network") then
      if truthy (lastNetworkError this)
      then (this, req, errorResponse res (lastNetworkError this), [])
      else (this, req, successResponse res (JObj (lastNetworkData this)), [])
    else if String.eqb pathname (apiPath this ++ "/network/rx") then
      if truthy (lastNetworkError this)
      then (this, req, errorResponse res (lastNetworkError this), [])
      else (this, req,
            successResponse res
              (JStr (metric_json
                       (ToString (get_prop (lastNetworkData this) "rx")))),
            [])
    else if String.eqb pathname (apiPath this ++ "/network/tx") then
      if truthy (lastNetworkError this)
      then (this, req, errorResponse res (lastNetworkError this), [])
      else (this, req,
            successResponse res
              (JStr (metric_json
                       (ToString (get_prop (lastNetworkData this) "tx")))),
            [])
    else
      (set_requestCount (js_incr (requestCount this)) this, req,
       (res ++ [SetStatusCode 404; End None])%list, []).

(** The arrow function returned by [requestListener()], applied to the
    instance it closes over.  [None] is the TypeError of line 167: on a
    null pathname, [pathname !== this.apiPath] holds and
    [pathname.startsWith] is then evaluated on null, before anything is
    written. *)
Definition requestListener (this : Listener) (req : Request) (res : Response)
  : option (Listener * Request * Response * list Cmd) :=
  match urlParse_pathname (url req) with
  | None => None
  | Some pathname => Some (dispatch this pathname req res)
  end.

(** The two callbacks on the promise of [mem()] in the memory route. *)
Definition memDone (res : Response) (r : Settled JsObj) (now : float)
  : Response :=
  match r with
  | Resolved memStats =>
      successResponse res (JObj (set_prop memStats "dateCaptured" (JNum now)))
  | Rejected error => errorResponse res error
  end.

End Router.

(** ** The event loop *)

Definition Pending_eqb (p q : Pending) : bool :=
  match p, q with
  | PCpuSeed, PCpuSeed | PCpuTick, PCpuTick
  | PNetIface, PNetIface | PMem, PMem => true
  | PNetSeed a, PNetSeed b | PNetTick a, PNetTick b => String.eqb a b
  | _, _ => false
  end.

Definition TimerCb_eqb (p q : TimerCb) : bool :=
  match p, q with
  | TCpuTick, TCpuTick | TNetRetry, TNetRetry => true
  | TNetTick a, TNetTick b => String.eqb a b
  | _, _ => false
  end.

(** Take one occurrence out of a list; [None] when there is none. *)
Fixpoint take_out {A : Type} (same : A -> bool) (l : list A) : option (list A) :=
  match l with
  | [] => None
  | x :: rest =>
      if same x then Some rest
      else match take_out same rest with
           | Some rest' => Some (x :: rest')
           | None => None
           end
  end.

(** The listener together with what the runtime holds for it: the calls in
    flight, the running intervals and the armed timeouts (callback and
    delay in milliseconds). *)
Record World : Type := mkWorld {
  listener  : Listener;
  pending   : list Pending;
  intervals : list (TimerCb * Z);
  timeouts  : list (TimerCb * Z)
}.

Definition apply_cmd (w : World) (c : Cmd) : World :=
  match c with
  | Invoke p => mkWorld (listener w) (p :: pending w) (intervals w) (timeouts w)
  | SetInterval cb ms =>
      mkWorld (listener w) (pending w) ((cb, ms) :: intervals w) (timeouts w)
  | SetTimeout cb ms =>
      mkWorld (listener w) (pending w) (intervals w) ((cb, ms) :: timeouts w)
  end.

Definition commit (w : World) (out : Listener * list Cmd) : World :=
  fold_left apply_cmd (snd out)
    (mkWorld (fst out) (pending w) (intervals w) (timeouts w)).

Definition settle (w : World) (p : Pending) : option World :=
  match take_out (Pending_eqb p) (pending w) with
  | Some rest => Some (mkWorld (listener w) rest (intervals w) (timeouts w))
  | None => None
  end.

Definition timer_is (cb : TimerCb) (t : TimerCb * Z) : bool :=
  TimerCb_eqb cb (fst t).

Definition run_timer (this : Listener) (cb : TimerCb) : Listener * list Cmd :=
  match cb with
  | TCpuTick => cpuTimer this
  | TNetTick nic => netTimer this nic
  | TNetRetry => netRetryTimer this
  end.

(** What can happen to a running listener. *)
Inductive Event : Type :=
| CpuSeedSettles (r : Settled JsObj)
| CpuTickSettles (r : Settled JsObj) (now : float)
| NetIfaceSettles (r : Settled string)
| NetSeedSettles (nic : string) (r : Settled JsObj)
| NetTickSettles (nic : string) (r : Settled JsObj) (now : float)
| MemSettles
| IntervalFires (cb : TimerCb)
| TimeoutFires (cb : TimerCb)
| RequestArrives (req : Request) (res : Response).

Section Runtime.

Variable urlParse_pathname : string -> option string.
Variable JSON_stringify : JsVal -> option string.
Variable ToString : JsVal -> string.

Definition Handler : Type :=
  Listener -> Request -> Response ->
  option (Listener * Request * Response * list Cmd).

Definition the_requestListener : Handler :=
  requestListener urlParse_pathname JSON_stringify ToString.

(** One turn of the event loop; [None] when the event cannot happen in
    this world (no such call in flight, no such timer).  A handler that
    throws has written nothing: the world is as it was, and the exception is
    the host's to deal with. *)
Definition step (w : World) (ev : Event) : option World :=
  match ev with
  | CpuSeedSettles r =>
      option_map (fun w => commit w (cpuSeedDone (listener w) r))
                 (settle w PCpuSeed)
  | CpuTickSettles r now =>
      option_map (fun w => commit w (cpuTickDone (listener w) r now))
                 (settle w PCpuTick)
  | NetIfaceSettles r =>
      option_map (fun w => commit w (netIfaceDone (listener w) r))
                 (settle w PNetIface)
  | NetSeedSettles nic r =>
      option_map (fun w => commit w (netSeedDone (listener w) nic r))
                 (settle w (PNetSeed nic))
  | NetTickSettles nic r now =>
      option_map (fun w => commit w (netTickDone (listener w) r now))
                 (settle w (PNetTick nic))
  | MemSettles => settle w PMem
  | IntervalFires cb =>
      if existsb (timer_is cb) (intervals w)
      then Some (commit w (run_timer (listener w) cb))
      else None
  | TimeoutFires cb =>
      match take_out (timer_is cb) (timeouts w) with
      | Some rest =>
          Some (commit (mkWorld (listener w) (pending w) (intervals w) rest)
                       (run_timer (listener w) cb))
      | None => None
      end
  | RequestArrives req res =>
      match the_requestListener (listener w) req res with
      | Some (this, _, _, cmds) => Some (commit w (this, cmds))
      | None => Some w
      end
  end.

Fixpoint run (w : World) (trace : list Event) : option World :=
  match trace with
  | [] => Some w
  | ev :: rest =>
      match step w ev with
      | Some w' => run w' rest
      | None => None
      end
  end.

(** ** Construction (lines 11-33) *)

(** The fresh object [new] hands to the constructor: no field is set yet. *)
Definition fresh_instance : Listener :=
  mkListener "" 0 0 [] [] JUndefined JUndefined 0 0.

Definition set_apiPath (p : string) (this : Listener) : Listener :=
  mkListener p (interval this) (requestCount this) (lastCpuData this)
    (lastNetworkData this) (lastCpuError this) (lastNetworkError this)
    (cpuIntervals this) (networkIntervals this).

Definition set_interval (ms : Z) (this : Listener) : Listener :=
  mkListener (apiPath this) ms (requestCount this) (lastCpuData this)
    (lastNetworkData this) (lastCpuError this) (lastNetworkError this)
    (cpuIntervals this) (networkIntervals this).

(** What a constructor call leaves behind: the initialised instance, the
    commands it issued, and the value of its [return] statement (it has
    one: [return this.requestListener()]).  The outer [None] is the
    TypeError of [normalizeApiPath]. *)
Definition constructor (this : Listener) (apiPath interval : JsVal)
  : option (Listener * list Cmd * option Handler) :=
  match normalizeApiPath apiPath with
  | None => None
  | Some apiPath =>
      let interval := normalizeInterval interval in
      let this := set_apiPath apiPath this in
      let this := set_interval interval this in
      let this := _initializeDefaults this in
      let '(this, cmds1) := _initCpuMonitoring this in
      let '(this, cmds2) := _initNetworkMonitoring this in
      Some (this, (cmds1 ++ cmds2)%list, Some the_requestListener)
  end.

(** The value of a [new] expression: the object the constructor returned
    when it returned one (a function is an object), the instance
    otherwise. *)
Inductive NewValue : Type :=
| Instance (this : Listener)
| Returned (h : Handler).

Definition js_new (this : Listener) (returned : option Handler) : NewValue :=
  match returned with
  | Some h => Returned h
  | None => Instance this
  end.

(** [new MetricsListener(apiPath, interval)]: the value the caller gets and
    the world the construction starts. *)
Definition new_MetricsListener (apiPath interval : JsVal)
  : option (NewValue * World) :=
  match constructor fresh_instance apiPath interval with
  | None => None
  | Some (this, cmds, returned) =>
      Some (js_new this returned,
            commit (mkWorld this [] [] []) (this, cmds))
  end.

Definition boot (apiPath interval : JsVal) : option World :=
  option_map snd (new_MetricsListener apiPath interval).

End Runtime.

(** ** The caller's side of [new] *)

(** What the code that called [new] can hold.  A process may construct
    several listeners; each instance lives at an address.  A reference is
    either to an instance, or to a closure: the code of an arrow function
    together with the address of the instance its [this] is bound to. *)
Inductive Ref : Type :=
| InstanceRef (addr : nat)
| ClosureRef (code : Handler) (this_addr : nat).

(** The instances of a process, each with its calls and timers, by
    address. *)
Definition Process : Type := list World.

(** Replace what lives at an address. *)
Fixpoint put {A : Type} (n : nat) (x : A) (l : list A) : list A :=
  match l, n with
  | [], _ => []
  | _ :: rest, O => x :: rest
  | y :: rest, S n' => y :: put n' x rest
  end.

(** The instance a reference lets its holder read and write directly, by
    property access. *)
Definition instance_of (v : Ref) (proc : Process) : option Listener :=
  match v with
  | InstanceRef addr => option_map listener (nth_error proc addr)
  | ClosureRef _ _ => None
  end.

(** Calling a reference as a function with a request and a response. *)
Inductive CallOutcome : Type :=
| NotAFunction
| Threw
| Done (proc : Process) (req : Request) (res : Response).

Definition call (v : Ref) (proc : Process) (req : Request) (res : Response)
  : CallOutcome :=
  match v with
  | InstanceRef _ => NotAFunction
  | ClosureRef code addr =>
      match nth_error proc addr with
      | None => Threw
      | Some w =>
          match code (listener w) req res with
          | None => Threw
          | Some (this, req', res', cmds) =>
              Done (put addr (commit w (this, cmds)) proc) req' res'
          end
      end
  end.

Section Process.

Variable urlParse_pathname : string -> option string.
Variable JSON_stringify : JsVal -> option string.
Variable ToString : JsVal -> string.

(** [new MetricsListener(apiPath, interval)] in a process: the instance is
    allocated at a fresh address, the constructor runs on it, and the
    caller gets the object the constructor returned, the arrow function
    closed over the new instance, where a constructor without a [return]
    would have given the instance. *)
Definition construct (proc : Process) (apiPath interval : JsVal)
  : option (Ref * Process) :=
  match new_MetricsListener urlParse_pathname JSON_stringify ToString
          apiPath interval with
  | None => None
  | Some (v, w) =>
      let addr := List.length proc in
      Some (match v with
            | Instance _ => InstanceRef addr
            | Returned h => ClosureRef h addr
            end,
            (proc ++ [w])%list)
  end.

End Process.

(** ** Vocabulary of the properties *)

(** [k] slashes in a row. *)
Fixpoint slashes (k : nat) : string :=
  match k with
  | O => ""
  | S k' => slashes k' ++ "/"
  end.

(** The spec's wording of the inputs it sends to the default: nothing but
    blanks (space, tab, line feed, carriage return). *)
Definition blank_char (c : ascii) : bool :=
  match nat_of_ascii c with
  | 32%nat | 9%nat | 10%nat | 13%nat => true
  | _ => false
  end.

Fixpoint whitespace_only (s : string) : bool :=
  match s with
  | EmptyString => true
  | String c rest => blank_char c && whitespace_only rest
  end.

(** The seven routes served under a prefix. *)
Definition routes (prefix : string) : list string :=
  [ prefix ++ "/health";
    prefix ++ "/requests/total";
    prefix ++ "/cpu";
    prefix ++ "/memory";
    prefix ++ "/network";
    prefix ++ "/network/rx";
    prefix ++ "/network/tx" ].

Definition outside_prefix (prefix pathname : string) : Prop :=
  pathname <> prefix /\ startsWith pathname (prefix ++ "/") = false.

Definition under_prefix (prefix pathname : string) : Prop :=
  pathname = prefix \/ startsWith pathname (prefix ++ "/") = true.

(** The request after the listener has claimed it. *)
Definition claimed (req : Request) : Request := mkRequest (url req) (JBool true).

(** The four things a call of the handler leaves behind. *)
Definition listener_after (out : Listener * Request * Response * list Cmd)
  : Listener := fst (fst (fst out)).
Definition request_after (out : Listener * Request * Response * list Cmd)
  : Request := snd (fst (fst out)).
Definition response_after (out : Listener * Request * Response * list Cmd)
  : Response := snd (fst out).
Definition commands_of (out : Listener * Request * Response * list Cmd)
  : list Cmd := snd out.

(** ** Stand-ins for the library functions, to run the model on examples *)

(** Everything before the first question mark or hash. *)
Fixpoint upto_query (u : string) : string :=
  match u with
  | EmptyString => EmptyString
  | String c rest =>
      if (Ascii.eqb c "?" || Ascii.eqb c "#")%bool then EmptyString
      else String c (upto_query rest)
  end.

(** The pathname of a request target, for the two kinds of target the
    examples use: an origin-form target (it starts with a slash) has the
    path before its query; a target such as x://h has none. *)
Definition pathname_of_target (u : string) : option string :=
  if String.prefix "/" u then Some (upto_query u) else None.

(** A serializer that tells apart only what the examples need. *)
Definition stringify_stub (v : JsVal) : option string :=
  match v with
  | JUndefined => None
  | JNull => Some "null"
  | JBool true => Some "true"
  | JBool false => Some "false"
  | JNum _ => Some "<number>"
  | JStr s => Some (dquote ++ s ++ dquote)
  | JArr _ => Some "<array>"
  | JObj [] => Some "{}"
  | JObj _ => Some "<object>"
  end.

Definition tostring_stub (v : JsVal) : string :=
  match v with
  | JUndefined => "undefined"
  | JNull => "null"
  | JBool true => "true"
  | JBool false => "false"
  | JNum _ => "<number>"
  | JStr s => s
  | JArr _ => "<array>"
  | JObj _ => "[object Object]"
  end.

(** A listener as the constructor leaves it for the default arguments, and
    the world it starts. *)
Definition default_listener : Listener :=
  mkListener "/metrics" 1000 0 defaultCpuData defaultNetworkData
    JNull JNull 0 0.

Definition default_world : World :=
  mkWorld default_listener [PNetIface; PCpuSeed] [] [].

(** ** Samples, adoption and the shape of a running world *)

(** A snapshot with its capture time written into it. *)
Definition stamped (stats : JsObj) (now : float) : JsObj :=
  set_prop stats "dateCaptured" (JNum now).

(** The successful samples of each cell, in the order they completed. *)
Definition cpu_sample_of (ev : Event) : list JsObj :=
  match ev with
  | CpuSeedSettles (Resolved v) => [v]
  | CpuTickSettles (Resolved v) _ => [v]
  | _ => []
  end.

Definition net_sample_of (ev : Event) : list JsObj :=
  match ev with
  | NetSeedSettles _ (Resolved v) => [v]
  | NetTickSettles _ (Resolved v) _ => [v]
  | _ => []
  end.

Definition cpu_samples (trace : list Event) : list JsObj :=
  flat_map cpu_sample_of trace.

Definition net_samples (trace : list Event) : list JsObj :=
  flat_map net_sample_of trace.

(** What the cache of a cell may hold after the given successful samples:
    the default as long as there is at most one of them, and from the second
    on the stamped value of a sample that is not the first. *)
Definition first_suppressed (default : JsObj) (samples : list JsObj)
    (data : JsObj) : Prop :=
  ((List.length samples <= 1)%nat -> data = default) /\
  ((2 <= List.length samples)%nat ->
   exists (k : nat) (v : JsObj) (now : float),
     (2 <= k <= List.length samples)%nat /\
     nth_error samples (k - 1) = Some v /\
     data = stamped v now).

(** The sharper form the proofs carry along: it is the latest sample. *)
Definition holds_latest (default : JsObj) (samples : list JsObj)
    (data : JsObj) : Prop :=
  ((List.length samples <= 1)%nat -> data = default) /\
  ((2 <= List.length samples)%nat ->
   exists now : float, data = stamped (last samples []) now).

(** An event that makes a cell adopt a sample: a successful tick that takes
    the cell's counter above 1. *)
Definition adopts_cpu (this : Listener) (ev : Event) : bool :=
  match ev with
  | CpuTickSettles (Resolved _) _ => 1 <? js_incr (cpuIntervals this)
  | _ => false
  end.

Definition adopts_net (this : Listener) (ev : Event) : bool :=
  match ev with
  | NetTickSettles _ (Resolved _) _ => 1 <? js_incr (networkIntervals this)
  | _ => false
  end.

Fixpoint count {A : Type} (f : A -> bool) (l : list A) : nat :=
  match l with
  | [] => 0%nat
  | x :: rest => ((if f x then 1 else 0) + count f rest)%nat
  end.

Definition is_cpu_seed (p : Pending) : bool := Pending_eqb PCpuSeed p.
Definition is_cpu_tick (p : Pending) : bool := Pending_eqb PCpuTick p.
Definition is_net_boot (p : Pending) : bool :=
  match p with
  | PNetIface | PNetSeed _ => true
  | _ => false
  end.
Definition is_net_tick (p : Pending) : bool :=
  match p with
  | PNetTick _ => true
  | _ => false
  end.
Definition is_cpu_timer (t : TimerCb * Z) : bool := timer_is TCpuTick t.
Definition is_retry (t : TimerCb * Z) : bool := timer_is TNetRetry t.
Definition is_net_timer (t : TimerCb * Z) : bool :=
  match fst t with
  | TNetTick _ => true
  | _ => false
  end.

(** The shape every world reached from a construction has, for [hc] and
    [hn] successful CPU and network samples so far.  The seed call of the
    CPU cell is in flight at most once, and while it is, the cell has no
    sample, no tick in flight and no interval.  The network bootstrap is at
    exactly one place at a time (resolving, waiting for the retry, or
    seeding), and while it is under way the cell has no sample, no tick in
    flight and no interval.  Timeouts are only ever retries, intervals never
    are.  Each counter is the number of successful samples of its cell. *)
Definition Shape (hc hn : nat) (w : World) : Prop :=
  (count is_cpu_seed (pending w) <= 1)%nat /\
  (count is_cpu_seed (pending w) = 1%nat ->
     hc = 0%nat /\
     count is_cpu_tick (pending w) = 0%nat /\
     count is_cpu_timer (intervals w) = 0%nat) /\
  count is_cpu_timer (timeouts w) = 0%nat /\
  count is_net_timer (timeouts w) = 0%nat /\
  count is_retry (intervals w) = 0%nat /\
  (count is_net_boot (pending w) + count is_retry (timeouts w) <= 1)%nat /\
  ((count is_net_boot (pending w) + count is_retry (timeouts w))%nat = 1%nat ->
     hn = 0%nat /\
     count is_net_tick (pending w) = 0%nat /\
     count is_net_timer (intervals w) = 0%nat) /\
  cpuIntervals (listener w) = Z.min (Z.of_nat hc) MAX_EXACT /\
  networkIntervals (listener w) = Z.min (Z.of_nat hn) MAX_EXACT.

Definition Inv (cpu net : list JsObj) (w : World) : Prop :=
  Shape (List.length cpu) (List.length net) w /\
  holds_latest defaultCpuData cpu (lastCpuData (listener w)) /\
  holds_latest defaultNetworkData net (lastNetworkData (listener w)).

(** [n] failed interface resolutions, each followed by its retry. *)
Definition failed_attempts (errors : list JsVal) : list Event :=
  flat_map (fun e => [NetIfaceSettles (Rejected e); TimeoutFires TNetRetry])
           errors.

Section Quiet.

Variable urlParse_pathname : string -> option string.
Variable JSON_stringify : JsVal -> option string.
Variable ToString : JsVal -> string.

(** No event of the trace, run from [w], makes the cell adopt a sample. *)
Fixpoint never_adopts (adopts : Listener -> Event -> bool)
    (w : World) (trace : list Event) : bool :=
  match trace with
  | [] => true
  | ev :: rest =>
      negb (adopts (listener w) ev) &&
      match step urlParse_pathname JSON_stringify ToString w ev with
      | Some w' => never_adopts adopts w' rest
      | None => true
      end
  end.

End Quiet.

(** ** Example runs *)

(** The CPU cell takes two samples while the network bootstrap fails once,
    is retried, and then takes two samples of its own. *)
Definition two_samples_each : list Event :=
  [ CpuSeedSettles (Resolved [("currentload", JNum 1%float)]);
    NetIfaceSettles (Rejected (JStr "no default interface"));
    IntervalFires TCpuTick;
    CpuTickSettles (Resolved [("currentload", JNum 2%float)]) 1700000000%float;
    TimeoutFires TNetRetry;
    NetIfaceSettles (Resolved "eth0");
    NetSeedSettles "eth0" (Resolved [("rx", JNum 10%float)]);
    IntervalFires (TNetTick "eth0");
    NetTickSettles "eth0" (Resolved [("rx", JNum 20%float)])
      1700000001%float ].

Definition after_two_samples_each : World :=
  mkWorld
    (mkListener "/metrics" 1000 0
       [("currentload", JNum 2%float); ("dateCaptured", JNum 1700000000%float)]
       [("rx", JNum 20%float); ("dateCaptured", JNum 1700000001%float)]
       JNull JNull 2 2)
    []
    [(TNetTick "eth0", 1000); (TCpuTick, 1000)]
    [].

(** One sample per cell, a failed CPU tick and two requests: nothing is
    adopted. *)
Definition one_sample_each : list Event :=
  [ CpuSeedSettles (Resolved [("currentload", JNum 1%float)]);
    NetIfaceSettles (Resolved "eth0");
    NetSeedSettles "eth0" (Rejected (JStr "EIO"));
    IntervalFires (TNetTick "eth0");
    IntervalFires TCpuTick;
    CpuTickSettles (Rejected (JStr "EPERM")) 1700000000%float;
    RequestArrives (mkRequest "/metrics/memory" JUndefined) [];
    NetTickSettles "eth0" (Resolved [("rx", JNum 10%float)]) 1700000001%float;
    RequestArrives (mkRequest "/favicon.ico" JUndefined) [];
    MemSettles ].

Definition after_one_sample_each : World :=
  mkWorld
    (mkListener "/metrics" 1000 1 defaultCpuData defaultNetworkData
       (JStr "EPERM") (JStr "EIO") 1 1)
    []
    [(TNetTick "eth0", 1000); (TCpuTick, 1000)]
    [].

(** The network cell adopts a sample and the tick after it is rejected. *)
Definition rejected_network_tick : list Event :=
  [ NetIfaceSettles (Resolved "eth0");
    NetSeedSettles "eth0" (Resolved [("rx", JNum 10%float)]);
    IntervalFires (TNetTick "eth0");
    IntervalFires (TNetTick "eth0");
    NetTickSettles "eth0" (Resolved [("rx", JNum 20%float)]) 1700000001%float;
    NetTickSettles "eth0" (Rejected (JStr "EIO")) 1700000002%float ].

(** The same story on the CPU cell. *)
Definition rejected_cpu_tick : list Event :=
  [ CpuSeedSettles (Resolved [("currentload", JNum 1%float)]);
    IntervalFires TCpuTick;
    IntervalFires TCpuTick;
    CpuTickSettles (Resolved [("currentload", JNum 2%float)]) 1700000001%float;
    CpuTickSettles (Rejected (JStr "EIO")) 1700000002%float ].

(** ** Further vocabulary: routes, rejections, wiring *)

From Stdlib Require Import DecimalZ.

(** Whether a path is one of the seven routes. *)
Definition is_route (prefix pathname : string) : bool :=
  existsb (String.eqb pathname) (routes prefix).

(** The rejections each cell has a callback for: both CPU calls, and on the
    network side the interface resolution and the seed call. *)
Definition cpu_rejection_of (ev : Event) : list JsVal :=
  match ev with
  | CpuSeedSettles (Rejected e) => [e]
  | CpuTickSettles (Rejected e) _ => [e]
  | _ => []
  end.

Definition net_rejection_of (ev : Event) : list JsVal :=
  match ev with
  | NetIfaceSettles (Rejected e) => [e]
  | NetSeedSettles _ (Rejected e) => [e]
  | _ => []
  end.

Definition cpu_rejections (trace : list Event) : list JsVal :=
  flat_map cpu_rejection_of trace.

Definition net_rejections (trace : list Event) : list JsVal :=
  flat_map net_rejection_of trace.

(** The interface names the resolution has produced, oldest first. *)
Definition resolution_of (ev : Event) : list string :=
  match ev with
  | NetIfaceSettles (Resolved nic) => [nic]
  | _ => []
  end.

Definition resolutions (trace : list Event) : list string :=
  flat_map resolution_of trace.

Definition is_net_iface (p : Pending) : bool := Pending_eqb PNetIface p.
Definition is_net_seed (p : Pending) : bool :=
  match p with
  | PNetSeed _ => true
  | _ => false
  end.

(** The interface a call in flight or a timer samples, if it samples one. *)
Definition nic_of_pending (p : Pending) : option string :=
  match p with
  | PNetSeed nic | PNetTick nic => Some nic
  | _ => None
  end.

Definition nic_of_timer (t : TimerCb * Z) : option string :=
  match fst t with
  | TNetTick nic => Some nic
  | _ => None
  end.

(** How the timers and calls of a running listener hang together, given
    the interface names resolved so far.  The CPU cell is either waiting
    for its seed call or has its one interval.  The network bootstrap has
    either resolved once, or is resolving, or is waiting to retry; once
    resolved, the cell is either seeding or has its one interval.  Every
    interval was set with the configured delay as its argument, every
    timeout is the retry armed with 1000, and whatever samples the network samples the interface that
    was resolved. *)
Definition Wiring (resolved : list string) (w : World) : Prop :=
  (count is_cpu_seed (pending w) + count is_cpu_timer (intervals w))%nat
    = 1%nat /\
  (count is_net_iface (pending w) + count is_retry (timeouts w)
   + List.length resolved)%nat = 1%nat /\
  (count is_net_seed (pending w) + count is_net_timer (intervals w))%nat
    = List.length resolved /\
  count is_retry (intervals w) = 0%nat /\
  Forall (fun t => snd t = interval (listener w)) (intervals w) /\
  Forall (fun t => t = (TNetRetry, 1000)) (timeouts w) /\
  Forall (fun p => forall nic, nic_of_pending p = Some nic -> resolved = [nic])
         (pending w) /\
  Forall (fun t => forall nic, nic_of_timer t = Some nic -> resolved = [nic])
         (intervals w).

Section Counted.

Variable urlParse_pathname : string -> option string.

(** Whether the counter counts a request: it has a path, and the path is
    not one of the routes. *)
Definition is_counted (prefix : string) (req : Request) : bool :=
  match urlParse_pathname (url req) with
  | Some pathname => negb (is_route prefix pathname)
  | None => false
  end.

(** The requests of a trace that the counter counts. *)
Fixpoint counted_requests (prefix : string) (trace : list Event) : nat :=
  match trace with
  | [] => 0%nat
  | RequestArrives req _ :: rest =>
      ((if is_counted prefix req then 1 else 0)
       + counted_requests prefix rest)%nat
  | _ :: rest => counted_requests prefix rest
  end.

End Counted.

(** Reading a rendered counter back. *)
Definition counter_of_string (s : string) : option Z :=
  option_map Z.of_int (NilZero.int_of_string s).

(** A request stream for the examples: of the five requests two are
    counted; the one without a path makes the handler throw. *)
Definition five_requests : list Event :=
  [ RequestArrives (mkRequest "/metrics/health" JUndefined) [];
    RequestArrives (mkRequest "/index.html" JUndefined) [];
    CpuSeedSettles (Rejected (JStr "EPERM"));
    RequestArrives (mkRequest "x://h" JUndefined) [];
    RequestArrives (mkRequest "/metrics" JUndefined) [];
    RequestArrives (mkRequest "/metrics/cpu" JUndefined) [] ].

Definition after_five_requests : World :=
  mkWorld
    (mkListener "/metrics" 1000 2 defaultCpuData defaultNetworkData
       (JStr "EPERM") JNull 0 0)
    [PNetIface]
    [(TCpuTick, 1000)]
    [].

(** Two samples each, then one more CPU tick issued and not yet settled. *)
Definition third_tick_in_flight : list Event :=
  (two_samples_each ++ [IntervalFires TCpuTick])%list.

Definition with_third_tick_in_flight : World :=
  mkWorld (listener after_two_samples_each)
          [PCpuTick]
          (intervals after_two_samples_each)
          [].

(** A third CPU sample, which already carries a dateCaptured of its own. *)
Definition third_sample : JsObj :=
  [("dateCaptured", JNum 1%float); ("currentload", JNum 3%float)].

(** * Properties *)

(** ** Strings *)

Lemma append_empty_r (s : string) : s ++ "" = s.
Proof. induction s as [|c s IH]; simpl; [reflexivity | now rewrite IH]. Qed.

Lemma append_assoc (a b c : string) : (a ++ b) ++ c = a ++ (b ++ c).
Proof. induction a as [|x a IH]; simpl; [reflexivity | now rewrite IH]. Qed.

Lemma prefix_append (a b c : string) :
  String.prefix (a ++ b) (a ++ c) = String.prefix b c.
Proof.
  induction a as [|x a IH]; simpl; [reflexivity|].
  destruct (ascii_dec x x) as [_|N]; [exact IH | now elim N].
Qed.

(** Cutting a string at [n] and gluing the two pieces back. *)
Lemma substring_split (s : string) (n : nat) :
  (n <= String.length s)%nat ->
  s = substring 0 n s ++ substring n (String.length s - n) s.
Proof.
  revert n; induction s as [|c s IH]; intros n Hn; simpl in *.
  - destruct n; [reflexivity | lia].
  - destruct n as [|n]; simpl.
    + f_equal. clear. induction s as [|d s IH]; simpl; [reflexivity|].
      now rewrite <- IH.
    + f_equal. apply IH. lia.
Qed.

Lemma length_substring_prefix (s : string) (n : nat) :
  (n <= String.length s)%nat -> String.length (substring 0 n s) = n.
Proof.
  revert n; induction s as [|c s IH]; intros n Hn; simpl in *.
  - destruct n; [reflexivity | lia].
  - destruct n as [|n]; simpl; [reflexivity|]. rewrite IH; lia.
Qed.

(** A string that ends with a slash is its [substring(0, length - 1)]
    followed by that slash. *)
Lemma endsWith_slash_split (s : string) :
  endsWith s "/" = true ->
  (1 <= String.length s)%nat /\
  s = substring 0 (String.length s - 1) s ++ "/".
Proof.
  unfold endsWith. simpl String.length. intros H.
  apply andb_true_iff in H as [Hlen Heq].
  apply Nat.leb_le in Hlen. apply String.eqb_eq in Heq.
  split; [exact Hlen|].
  rewrite (substring_split s (String.length s - 1)) at 1 by lia.
  replace (String.length s - (String.length s - 1))%nat with 1%nat by lia.
  now rewrite Heq.
Qed.

(** ** Prefix normalisation *)

(** The loop leaves through its test: with the length of the string as fuel
    the result no longer ends with a slash, and what was cut off is a run of
    slashes. *)
Lemma strip_loop_exits (fuel : nat) (s : string) :
  (String.length s <= fuel)%nat ->
  endsWith (strip_loop fuel s) "/" = false /\
  exists k, s = strip_loop fuel s ++ slashes k.
Proof.
  revert s; induction fuel as [|fuel IH]; intros s Hlen; simpl.
  - destruct s; simpl in Hlen; [|lia].
    split; [reflexivity | exists O; reflexivity].
  - destruct (endsWith s "/") eqn:E.
    + destruct (endsWith_slash_split s E) as [H1 Hs].
      set (s' := substring 0 (String.length s - 1) s) in *.
      assert (Hs' : (String.length s' <= fuel)%nat).
      { unfold s'. rewrite length_substring_prefix; lia. }
      destruct (IH s' Hs') as [Hend [k Hk]].
      split; [exact Hend|].
      exists (S k). simpl. rewrite <- append_assoc, <- Hk. exact Hs.
    + split; [exact E|]. exists O. simpl. now rewrite append_empty_r.
Qed.

Lemma strip_trailing_slashes_spec (s : string) :
  endsWith (strip_trailing_slashes s) "/" = false /\
  exists k, s = strip_trailing_slashes s ++ slashes k.
Proof. apply strip_loop_exits. apply Nat.le_refl. Qed.

(** C5, as stated, fails: a prefix made of one space is whitespace-only, the
    constructor has no trimming step, and the prefix stays a space instead
    of becoming the default. *)
Lemma whitespace_prefix_is_kept :
  whitespace_only " " = true /\
  normalizeApiPath (JStr " ") = Some " " /\
  normalizeApiPath (JStr " ") <> Some DEFAULT_PATH_PREFIX.
Proof. repeat split; try reflexivity. discriminate. Qed.

(** C5 (amended): for every string [apiPath] the effective prefix is the
    argument with all of its trailing slashes removed, unless nothing is
    left, in which case (empty argument, or slashes only) it is the default
    "/metrics"; a missing argument gives the default as well.  In
    particular "/m/" gives "/m" and the empty string gives "/metrics". *)
Theorem prefix_normalization (s : string) :
  (exists r k,
      s = r ++ slashes k /\
      endsWith r "/" = false /\
      normalizeApiPath (JStr s) =
        Some (if String.eqb r "" then DEFAULT_PATH_PREFIX else r)) /\
  normalizeApiPath (JStr "/m/") = Some "/m" /\
  normalizeApiPath (JStr "") = Some "/metrics" /\
  normalizeApiPath JUndefined = Some "/metrics".
Proof.
  split; [|repeat split; reflexivity].
  destruct (strip_trailing_slashes_spec s) as [Hend [k Hk]].
  exists (strip_trailing_slashes s), k.
  repeat split; try assumption.
  unfold normalizeApiPath. destruct s as [|c s].
  - reflexivity.
  - reflexivity.
Qed.

(** ** Response encoding *)

Lemma statusCode_of_app (res ops : Response) :
  statusCode_of (res ++ ops)%list =
  match statusCode_of ops with
  | Some c => Some c
  | None => statusCode_of res
  end.
Proof.
  induction res as [|op res IH]; simpl.
  - now destruct (statusCode_of ops).
  - rewrite IH. destruct (statusCode_of ops); [reflexivity|].
    now destruct (statusCode_of res).
Qed.

Lemma header_of_app (name : string) (res ops : Response) :
  header_of name (res ++ ops)%list =
  match header_of name ops with
  | Some v => Some v
  | None => header_of name res
  end.
Proof.
  induction res as [|op res IH]; simpl.
  - now destruct (header_of name ops).
  - rewrite IH. destruct (header_of name ops); [reflexivity|].
    now destruct (header_of name res).
Qed.

Lemma ended_with_app (res ops : Response) :
  ended_with (res ++ ops)%list = (ended_with res ++ ended_with ops)%list.
Proof.
  induction res as [|op res IH]; simpl; [reflexivity|].
  destruct op; simpl; now rewrite IH.
Qed.

Section RouterProperties.

Variable urlParse_pathname : string -> option string.
Variable JSON_stringify : JsVal -> option string.
Variable ToString : JsVal -> string.

Local Notation "'handle'" :=
  (requestListener urlParse_pathname JSON_stringify ToString).
Local Notation "'route'" := (dispatch JSON_stringify ToString).
Local Notation "'success'" := (successResponse JSON_stringify).
Local Notation "'failure'" := (errorResponse JSON_stringify).

(** C7: [successResponse] sets status 200 and [errorResponse] status 500;
    both set Content-Type to application/json and end the response with the
    value itself when it is a string and with its JSON serialization
    otherwise. *)
Theorem response_encoding (res : Response) (v : JsVal) :
  let body := match v with
              | JStr s => Some s
              | _ => JSON_stringify v
              end in
  (statusCode_of (success res v) = Some 200 /\
   header_of "Content-Type" (success res v) = Some "application/json" /\
   ended_with (success res v) = (ended_with res ++ [body])%list) /\
  (statusCode_of (failure res v) = Some 500 /\
   header_of "Content-Type" (failure res v) = Some "application/json" /\
   ended_with (failure res v) = (ended_with res ++ [body])%list).
Proof.
  unfold successResponse, errorResponse, encode_body.
  rewrite !statusCode_of_app, !header_of_app, !ended_with_app.
  simpl. repeat split; reflexivity.
Qed.

(** ** Routing *)

Lemma route_under_prefix (prefix p : string) :
  In p (routes prefix) -> startsWith p (prefix ++ "/") = true.
Proof.
  unfold routes, startsWith. simpl.
  intros H; repeat destruct H as [H|H]; try contradiction; subst p;
    rewrite prefix_append; reflexivity.
Qed.

Lemma under_not_outside (prefix p : string) :
  negb (String.eqb p prefix) && negb (startsWith p (prefix ++ "/")) = false ->
  under_prefix prefix p /\ ~ outside_prefix prefix p.
Proof.
  intros H. apply andb_false_iff in H.
  unfold under_prefix, outside_prefix.
  destruct H as [H|H]; apply negb_false_iff in H.
  - apply String.eqb_eq in H. split; [now left | intros [N _]; now elim N].
  - split; [now right | intros [_ N]; congruence].
Qed.

Lemma outside_test (prefix p : string) :
  negb (String.eqb p prefix) && negb (startsWith p (prefix ++ "/")) = true <->
  outside_prefix prefix p.
Proof.
  unfold outside_prefix.
  rewrite andb_true_iff, !negb_true_iff, String.eqb_neq. reflexivity.
Qed.

Lemma js_incr_exact (n : Z) : n < MAX_EXACT -> js_incr n = n + 1.
Proof.
  intros H. unfold js_incr. destruct (n <? MAX_EXACT) eqn:E; [reflexivity|].
  apply Z.ltb_ge in E. lia.
Qed.

Lemma handle_some (this : Listener) (req : Request) (res : Response)
    (p : string) :
  urlParse_pathname (url req) = Some p ->
  handle this req res = Some (route this p req res).
Proof. intros E. unfold requestListener. now rewrite E. Qed.

Lemma handle_none (this : Listener) (req : Request) (res : Response) :
  urlParse_pathname (url req) = None -> handle this req res = None.
Proof. intros E. unfold requestListener. now rewrite E. Qed.

Lemma dispatch_outside (this : Listener) (p : string)
    (req : Request) (res : Response) :
  outside_prefix (apiPath this) p ->
  route this p req res =
  (set_requestCount (js_incr (requestCount this)) this, req, res, []).
Proof.
  intros O. apply outside_test in O. unfold dispatch. now rewrite O.
Qed.

Lemma dispatch_claims (this : Listener) (p : string)
    (req : Request) (res : Response) :
  under_prefix (apiPath this) p ->
  request_after (route this p req res) = claimed req.
Proof.
  intros U. unfold dispatch.
  destruct (negb (String.eqb p (apiPath this)) &&
            negb (startsWith p (apiPath this ++ "/"))) eqn:T.
  - apply outside_test in T. destruct T as [T1 T2].
    destruct U as [U|U]; [now elim T1 | congruence].
  - repeat match goal with
           | |- context [if ?c then _ else _] => destruct c
           end; reflexivity.
Qed.

(** The counter rule on the body of the handler. *)
Lemma dispatch_counter_rule (this : Listener) (p : string)
    (req : Request) (res : Response) :
  requestCount this < MAX_EXACT ->
  let this' := listener_after (route this p req res) in
  (requestCount this' = requestCount this + 1 <->
     outside_prefix (apiPath this) p \/
     (under_prefix (apiPath this) p /\ ~ In p (routes (apiPath this)))) /\
  (In p (routes (apiPath this)) -> requestCount this' = requestCount this).
Proof.
  intros Hlt this'. subst this'. unfold dispatch.
  destruct (negb (String.eqb p (apiPath this)) &&
            negb (startsWith p (apiPath this ++ "/"))) eqn:T.
  - apply outside_test in T. cbn. rewrite js_incr_exact by exact Hlt.
    split; [split; [intros _; now left | reflexivity]|].
    intros R. apply route_under_prefix in R. destruct T as [_ T]. congruence.
  - apply under_not_outside in T as [U N].
    match goal with
    | |- (requestCount ?X = _ <-> _) /\ _ =>
        assert (H : (In p (routes (apiPath this)) /\
                     requestCount X = requestCount this) \/
                    (~ In p (routes (apiPath this)) /\
                     requestCount X = requestCount this + 1))
    end.
    { repeat match goal with
             | |- context [if String.eqb p ?r then _ else _] =>
                 let E := fresh "E" in
                 destruct (String.eqb p r) eqn:E;
                 [ apply String.eqb_eq in E
                 | apply String.eqb_neq in E ]
             | |- context [if truthy ?e then _ else _] => destruct (truthy e)
             end;
        try (left; split; [subst p; unfold routes; simpl; auto 10
                          | reflexivity]).
      right. split.
      - unfold routes. simpl. intuition congruence.
      - cbn. now apply js_incr_exact. }
    destruct H as [[R ->]|[M ->]].
    + split; [|reflexivity]. split; [lia|].
      intros [O|[_ M]]; [now elim N | now elim M].
    + split; [split; [intros _; right; now split | reflexivity]|].
      intros R. now elim M.
Qed.

(** A request whose URL has a pathname outside the prefix is not claimed,
    bumps the request counter, gets nothing written to its response and
    makes the handler return; a request whose pathname is under the prefix
    is marked as handled, whatever the route then does. *)
Theorem request_with_a_path_outside_prefix
    (this : Listener) (req : Request) (res : Response) (pathname : string) :
  urlParse_pathname (url req) = Some pathname ->
  exists out,
    handle this req res = Some out /\
    (outside_prefix (apiPath this) pathname ->
       request_after out = req /\
       response_after out = res /\
       commands_of out = [] /\
       listener_after out
         = set_requestCount (js_incr (requestCount this)) this /\
       (requestCount this < MAX_EXACT ->
          requestCount (listener_after out) = requestCount this + 1)) /\
    (under_prefix (apiPath this) pathname ->
       request_after out = claimed req).
Proof.
  intros E. exists (route this pathname req res).
  split; [now apply handle_some|]. split.
  - intros O. rewrite (dispatch_outside _ _ req res O). cbn.
    repeat split. intros Hlt. now apply js_incr_exact.
  - apply dispatch_claims.
Qed.

(** For a request whose URL has a pathname, the request counter goes up by
    one exactly when the pathname is outside the prefix or falls through
    to the 404 branch under it; the seven routes leave it as it is. *)
Theorem counter_rule_for_requests_with_a_path
    (this : Listener) (req : Request) (res : Response) (pathname : string) :
  requestCount this < MAX_EXACT ->
  urlParse_pathname (url req) = Some pathname ->
  exists out,
    handle this req res = Some out /\
    (requestCount (listener_after out) = requestCount this + 1 <->
       outside_prefix (apiPath this) pathname \/
       (under_prefix (apiPath this) pathname /\
        ~ In pathname (routes (apiPath this)))) /\
    (In pathname (routes (apiPath this)) ->
       requestCount (listener_after out) = requestCount this).
Proof.
  intros Hlt E. exists (route this pathname req res).
  split; [now apply handle_some|].
  exact (dispatch_counter_rule this pathname req res Hlt).
Qed.

Lemma eqb_append_l (a b c : string) :
  String.eqb (a ++ b) (a ++ c) = String.eqb b c.
Proof.
  induction a as [|x a IH]; simpl; [reflexivity|].
  now rewrite Ascii.eqb_refl.
Qed.

Lemma gate_passes (prefix tail : string) (b : bool) :
  String.prefix "/" tail = true ->
  b && negb (startsWith (prefix ++ tail) (prefix ++ "/")) = false.
Proof.
  intros H. unfold startsWith. rewrite prefix_append, H. apply andb_false_r.
Qed.

(** The answers of the routes that read the instance. *)
Lemma health_route (this : Listener) (req : Request) (res : Response) :
  urlParse_pathname (url req) = Some (apiPath this ++ "/health") ->
  handle this req res =
  Some (this, claimed req,
        (res ++ [SetStatusCode 200; End (Some "ok")])%list, []).
Proof.
  intros E. unfold requestListener. rewrite E. unfold dispatch.
  rewrite gate_passes by reflexivity. rewrite !eqb_append_l. reflexivity.
Qed.

Lemma cpu_route (this : Listener) (req : Request) (res : Response) :
  urlParse_pathname (url req) = Some (apiPath this ++ "/cpu") ->
  handle this req res =
  Some (this, claimed req,
        if truthy (lastCpuError this)
        then failure res (lastCpuError this)
        else success res (JObj (lastCpuData this)),
        []).
Proof.
  intros E. unfold requestListener. rewrite E. unfold dispatch.
  rewrite gate_passes by reflexivity. rewrite !eqb_append_l. simpl.
  now destruct (truthy (lastCpuError this)).
Qed.

Lemma network_route (this : Listener) (req : Request) (res : Response) :
  urlParse_pathname (url req) = Some (apiPath this ++ "/network") ->
  handle this req res =
  Some (this, claimed req,
        if truthy (lastNetworkError this)
        then failure res (lastNetworkError this)
        else success res (JObj (lastNetworkData this)),
        []).
Proof.
  intros E. unfold requestListener. rewrite E. unfold dispatch.
  rewrite gate_passes by reflexivity. rewrite !eqb_append_l. simpl.
  now destruct (truthy (lastNetworkError this)).
Qed.

Lemma total_route (this : Listener) (req : Request) (res : Response) :
  urlParse_pathname (url req) = Some (apiPath this ++ "/requests/total") ->
  handle this req res =
  Some (this, claimed req,
        success res
          (JStr (metric_json (counter_to_string (requestCount this)))),
        []).
Proof.
  intros E. unfold requestListener. rewrite E. unfold dispatch.
  rewrite gate_passes by reflexivity. rewrite !eqb_append_l. reflexivity.
Qed.

(** C4 (amended): on the routes /cpu, /network, /network/rx and /network/tx
    the handler answers from the cache alone: when the cell's lastError is
    truthy it sends the 500 error response built from that error, otherwise
    the 200 success response built from the cached value (the whole snapshot
    for /cpu and /network, the metric object of rx or tx for the two
    sub-routes).  The instance is left as it was and no call is issued, so
    no sample is triggered. *)
Theorem cached_routes_serve_the_cache
    (this : Listener) (req : Request) (res : Response) :
  let pathname := urlParse_pathname (url req) in
  let out := handle this req res in
  (pathname = Some (apiPath this ++ "/cpu") ->
     out = Some (this, claimed req,
                 if truthy (lastCpuError this)
                 then failure res (lastCpuError this)
                 else success res (JObj (lastCpuData this)),
                 [])) /\
  (pathname = Some (apiPath this ++ "/network") ->
     out = Some (this, claimed req,
                 if truthy (lastNetworkError this)
                 then failure res (lastNetworkError this)
                 else success res (JObj (lastNetworkData this)),
                 [])) /\
  (pathname = Some (apiPath this ++ "/network/rx") ->
     out = Some (this, claimed req,
                 if truthy (lastNetworkError this)
                 then failure res (lastNetworkError this)
                 else success res
                        (JStr (metric_json
                                 (ToString
                                    (get_prop (lastNetworkData this) "rx")))),
                 [])) /\
  (pathname = Some (apiPath this ++ "/network/tx") ->
     out = Some (this, claimed req,
                 if truthy (lastNetworkError this)
                 then failure res (lastNetworkError this)
                 else success res
                        (JStr (metric_json
                                 (ToString
                                    (get_prop (lastNetworkData this) "tx")))),
                 [])).
Proof.
  intros pathname out. subst out pathname. unfold requestListener.
  repeat split; intros ->; unfold dispatch;
    rewrite gate_passes by reflexivity;
    rewrite !eqb_append_l; simpl;
    match goal with
    | |- context [truthy ?e] => destruct (truthy e)
    end; reflexivity.
Qed.

(** The memory route is the one that samples on demand: the handler claims
    the request, issues [mem()] and writes nothing yet; the response is
    written when the call settles. *)
Lemma memory_route_defers (this : Listener) (req : Request) (res : Response) :
  urlParse_pathname (url req) = Some (apiPath this ++ "/memory") ->
  handle this req res = Some (this, claimed req, res, [Invoke PMem]) /\
  (forall memStats now,
      memDone JSON_stringify res (Resolved memStats) now =
      success res (JObj (stamped memStats now))) /\
  (forall error now,
      memDone JSON_stringify res (Rejected error) now = failure res error).
Proof.
  intros E. split; [|split; reflexivity].
  unfold requestListener. rewrite E. unfold dispatch.
  rewrite gate_passes by reflexivity.
  rewrite !eqb_append_l. reflexivity.
Qed.

End RouterProperties.

(** C4, as stated, fails on an error that is not null and yet falsy.  The
    seed call of the CPU cell is rejected with the empty string; the stored
    lastCpuError is that string, and a request to /metrics/cpu is answered
    200 with the cached snapshot. *)
Lemma falsy_error_is_served_as_success :
  let this := set_lastCpuError (JStr "") default_listener in
  let out := requestListener pathname_of_target stringify_stub tostring_stub
               this (mkRequest "/metrics/cpu" JUndefined) [] in
  option_map listener
    (run pathname_of_target stringify_stub tostring_stub default_world
       [CpuSeedSettles (Rejected (JStr ""))]) = Some this /\
  lastCpuError this <> JNull /\
  option_map (fun o => statusCode_of (response_after o)) out
    = Some (Some 200) /\
  option_map (fun o => statusCode_of (response_after o)) out
    <> Some (Some 500) /\
  option_map (fun o => ended_with (response_after o)) out
    = Some [stringify_stub (JObj defaultCpuData)].
Proof. cbv zeta. repeat split; try reflexivity; discriminate. Qed.

(** The amended C4 at work: the same request against a truthy error. *)
Lemma cached_routes_serve_the_cache_witness :
  let this := set_lastCpuError (JStr "EPERM") default_listener in
  requestListener pathname_of_target stringify_stub tostring_stub
    this (mkRequest "/metrics/cpu?x=1" JUndefined) [] =
  Some (this, claimed (mkRequest "/metrics/cpu?x=1" JUndefined),
        [SetStatusCode 500; SetHeader "Content-Type" "application/json";
         End (Some "EPERM")], []).
Proof.
  cbv zeta.
  exact (proj1 (cached_routes_serve_the_cache
                  pathname_of_target stringify_stub tostring_stub
                  (set_lastCpuError (JStr "EPERM") default_listener)
                  (mkRequest "/metrics/cpu?x=1" JUndefined) [])
               eq_refl).
Defined.

(** A request outside the prefix, then one under it. *)
Lemma request_with_a_path_outside_prefix_witness :
  (exists out,
      requestListener pathname_of_target stringify_stub tostring_stub
        default_listener (mkRequest "/other/path" JUndefined) [] = Some out /\
      request_after out = mkRequest "/other/path" JUndefined /\
      response_after out = [] /\
      requestCount (listener_after out) = 1) /\
  (exists out,
      requestListener pathname_of_target stringify_stub tostring_stub
        default_listener (mkRequest "/metrics/memory" JUndefined) []
        = Some out /\
      request_after out = mkRequest "/metrics/memory" (JBool true)).
Proof.
  split.
  - destruct (request_with_a_path_outside_prefix
                pathname_of_target stringify_stub tostring_stub
                default_listener (mkRequest "/other/path" JUndefined) []
                "/other/path" eq_refl) as (out & E & O & _).
    exists out. split; [exact E|].
    destruct O as (H1 & H2 & _ & _ & H5).
    + unfold outside_prefix. split.
      * intros N. vm_compute in N. discriminate N.
      * reflexivity.
    + split; [exact H1 | split; [exact H2 | apply H5; reflexivity]].
  - destruct (request_with_a_path_outside_prefix
                pathname_of_target stringify_stub tostring_stub
                default_listener (mkRequest "/metrics/memory" JUndefined) []
                "/metrics/memory" eq_refl) as (out & E & _ & U).
    exists out. split; [exact E|]. apply U. right. reflexivity.
Defined.

(** The counter rule on /metrics/bogus, which falls through to the 404
    branch. *)
Lemma counter_rule_for_requests_with_a_path_witness :
  requestCount default_listener < MAX_EXACT /\
  exists out,
    requestListener pathname_of_target stringify_stub tostring_stub
      default_listener (mkRequest "/metrics/bogus" JUndefined) [] = Some out /\
    requestCount (listener_after out) = requestCount default_listener + 1.
Proof.
  split; [reflexivity|].
  destruct (counter_rule_for_requests_with_a_path
              pathname_of_target stringify_stub tostring_stub
              default_listener (mkRequest "/metrics/bogus" JUndefined) []
              "/metrics/bogus" eq_refl eq_refl) as (out & E & R & _).
  exists out. split; [exact E|]. apply R.
  right. split.
  - right. reflexivity.
  - unfold routes. simpl. intuition discriminate.
Defined.

(** ** Counting what the runtime holds *)

Lemma count_cons {A : Type} (f : A -> bool) (x : A) (l : list A) :
  count f (x :: l) = ((if f x then 1 else 0) + count f l)%nat.
Proof. reflexivity. Qed.

Lemma take_out_count {A : Type} (same : A -> bool) (l rest : list A) :
  take_out same l = Some rest ->
  exists x, same x = true /\
            forall f, count f l = ((if f x then 1 else 0) + count f rest)%nat.
Proof.
  revert rest; induction l as [|y l IH]; intros rest H; simpl in H.
  - discriminate.
  - destruct (same y) eqn:Sy.
    + injection H as <-. exists y. split; [exact Sy|].
      intros f. apply count_cons.
    + destruct (take_out same l) as [rest'|]; [|discriminate].
      injection H as <-. destruct (IH rest' eq_refl) as (x & Hx & Hc).
      exists x. split; [exact Hx|]. intros f.
      rewrite !count_cons, (Hc f). lia.
Qed.

Lemma existsb_count {A : Type} (g f : A -> bool) (l : list A) :
  existsb g l = true ->
  (forall x, g x = true -> f x = true) ->
  (1 <= count f l)%nat.
Proof.
  intros H Hgf. induction l as [|y l IH]; simpl in H; [discriminate|].
  rewrite count_cons. apply orb_true_iff in H as [H|H].
  - rewrite (Hgf y H). lia.
  - specialize (IH H). lia.
Qed.

Lemma Pending_eqb_eq (p q : Pending) : Pending_eqb p q = true -> p = q.
Proof.
  destruct p, q; simpl; intros H; try discriminate; try reflexivity;
    apply String.eqb_eq in H; now subst.
Qed.

Lemma TimerCb_eqb_eq (p q : TimerCb) : TimerCb_eqb p q = true -> p = q.
Proof.
  destruct p, q; simpl; intros H; try discriminate; try reflexivity;
    apply String.eqb_eq in H; now subst.
Qed.

Lemma MAX_EXACT_large : 1 < MAX_EXACT.
Proof. reflexivity. Qed.

(** The counter of a cell follows the number of its successful samples, up
    to the point where a double stops counting. *)
Lemma js_incr_min (n : nat) :
  js_incr (Z.min (Z.of_nat n) MAX_EXACT) = Z.min (Z.of_nat (S n)) MAX_EXACT.
Proof.
  unfold js_incr.
  destruct (Z.min (Z.of_nat n) MAX_EXACT <? MAX_EXACT) eqn:E.
  - apply Z.ltb_lt in E. lia.
  - apply Z.ltb_ge in E. lia.
Qed.

Lemma holds_latest_weaken (default : JsObj) (samples : list JsObj)
    (data : JsObj) :
  holds_latest default samples data -> first_suppressed default samples data.
Proof.
  intros [H1 H2]. split; [exact H1|]. intros Hlen.
  destruct (H2 Hlen) as [now Hnow].
  exists (List.length samples), (last samples []), now.
  repeat split; try lia; [|exact Hnow].
  destruct samples as [|x samples] using rev_ind; [simpl in Hlen; lia|].
  rewrite last_last, length_app, nth_error_app2; simpl; [|lia].
  replace (List.length samples + 1 - 1 - List.length samples)%nat
    with 0%nat by lia.
  reflexivity.
Qed.

(** ** Every reachable world has the shape *)

Lemma holds_latest_first (default : JsObj) (samples : list JsObj)
    (data v : JsObj) :
  List.length samples = 0%nat ->
  holds_latest default samples data ->
  holds_latest default (samples ++ [v]) data.
Proof.
  intros H0 [H1 _]. split; rewrite length_app; simpl.
  - intros _. apply H1. lia.
  - lia.
Qed.

Lemma holds_latest_adopt (default : JsObj) (samples : list JsObj)
    (v : JsObj) (now : float) :
  (1 <= List.length samples)%nat ->
  holds_latest default (samples ++ [v]) (stamped v now).
Proof.
  intros H. split; rewrite length_app; simpl; [lia|].
  intros _. exists now. now rewrite last_last.
Qed.

Ltac settled T :=
  let x := fresh "x" in
  let Hx := fresh "Hx" in
  let Cnt := fresh "Cnt" in
  destruct (take_out_count _ _ _ T) as (x & Hx & Cnt);
  apply Pending_eqb_eq in Hx; subst x;
  pose proof (Cnt is_cpu_seed); pose proof (Cnt is_cpu_tick);
  pose proof (Cnt is_net_boot); pose proof (Cnt is_net_tick);
  clear Cnt; simpl in *.

Ltac shape_arith :=
  match goal with
  | Sh : Shape _ _ _ |- _ =>
      let Ec := fresh "Ec" in
      let En := fresh "En" in
      unfold Shape in Sh |- *;
      destruct Sh as (? & ? & ? & ? & ? & ? & ? & Ec & En);
      simpl; rewrite ?count_cons, ?length_app, ?app_nil_r; simpl;
      rewrite ?Ec, ?En, ?js_incr_min; pose proof MAX_EXACT_large; lia
  end.

Section LoopProperties.

Variable urlParse_pathname : string -> option string.
Variable JSON_stringify : JsVal -> option string.
Variable ToString : JsVal -> string.

Local Notation "'handle'" :=
  (requestListener urlParse_pathname JSON_stringify ToString).
Local Notation "'route'" := (dispatch JSON_stringify ToString).
Local Notation "'step''" := (step urlParse_pathname JSON_stringify ToString).
Local Notation "'run''" := (run urlParse_pathname JSON_stringify ToString).
Local Notation "'boot''" := (boot urlParse_pathname JSON_stringify ToString).

(** The handler reads the cells and writes the request counter only; the
    one call it may issue is the [mem()] of the memory route. *)
Lemma dispatch_frame (this : Listener) (p : string)
    (req : Request) (res : Response) :
  let out := route this p req res in
  (listener_after out = this \/
   listener_after out = set_requestCount (js_incr (requestCount this)) this) /\
  (commands_of out = [] \/ commands_of out = [Invoke PMem]).
Proof.
  unfold dispatch.
  repeat match goal with
         | |- context [if ?c then _ else _] => destruct c
         end; cbn; auto.
Qed.

Lemma step_Inv (cpu net : list JsObj) (w w' : World) (ev : Event) :
  Inv cpu net w ->
  step' w ev = Some w' ->
  Inv (cpu ++ cpu_sample_of ev) (net ++ net_sample_of ev) w'.
Proof.
  intros (Sh & Hc & Hn) H.
  destruct ev as [r|r now|r|nic r|nic r now| |cb|cb|req res]; simpl in H.
  - (* the CPU seed settles *)
    unfold settle in H.
    destruct (take_out (Pending_eqb PCpuSeed) (pending w)) as [rest|] eqn:T;
      [|discriminate].
    simpl in H. injection H as <-. settled T.
    assert (L : List.length cpu = 0%nat) by (unfold Shape in Sh; lia).
    destruct r as [v|e]; simpl; rewrite ?app_nil_r;
      (split; [shape_arith|]); (split; [|exact Hn]).
    + now apply holds_latest_first.
    + exact Hc.
  - (* a CPU tick settles *)
    unfold settle in H.
    destruct (take_out (Pending_eqb PCpuTick) (pending w)) as [rest|] eqn:T;
      [|discriminate].
    simpl in H. injection H as <-. settled T.
    destruct r as [v|e]; simpl; rewrite ?app_nil_r.
    + assert (E : js_incr (cpuIntervals (listener w)) =
                  Z.min (Z.of_nat (Datatypes.S (List.length cpu))) MAX_EXACT).
      { destruct Sh as (_ & _ & _ & _ & _ & _ & _ & -> & _).
        apply js_incr_min. }
      unfold cpuTickDone.
      destruct (1 <? js_incr (cpuIntervals (listener w))) eqn:G.
      * apply Z.ltb_lt in G. rewrite E in G.
        split; [shape_arith|]. split; [|exact Hn].
        apply holds_latest_adopt. lia.
      * apply Z.ltb_ge in G. rewrite E in G. pose proof MAX_EXACT_large.
        split; [shape_arith|]. split; [|exact Hn].
        apply holds_latest_first; [lia | exact Hc].
    + split; [shape_arith|]. split; [exact Hc | exact Hn].
  - (* the interface resolution settles *)
    unfold settle in H.
    destruct (take_out (Pending_eqb PNetIface) (pending w)) as [rest|] eqn:T;
      [|discriminate].
    simpl in H. injection H as <-. settled T.
    destruct r as [nic|e]; simpl; rewrite ?app_nil_r;
      (split; [shape_arith|]); (split; [exact Hc | exact Hn]).
  - (* the network seed settles *)
    unfold settle in H.
    destruct (take_out (Pending_eqb (PNetSeed nic)) (pending w))
      as [rest|] eqn:T; [|discriminate].
    simpl in H. injection H as <-. settled T.
    assert (L : List.length net = 0%nat) by (unfold Shape in Sh; lia).
    destruct r as [v|e]; simpl; rewrite ?app_nil_r;
      (split; [shape_arith|]); (split; [exact Hc|]).
    + now apply holds_latest_first.
    + exact Hn.
  - (* a network tick settles *)
    unfold settle in H.
    destruct (take_out (Pending_eqb (PNetTick nic)) (pending w))
      as [rest|] eqn:T; [|discriminate].
    simpl in H. injection H as <-. settled T.
    destruct r as [v|e]; simpl; rewrite ?app_nil_r.
    + assert (E : js_incr (networkIntervals (listener w)) =
                  Z.min (Z.of_nat (Datatypes.S (List.length net))) MAX_EXACT).
      { destruct Sh as (_ & _ & _ & _ & _ & _ & _ & _ & ->).
        apply js_incr_min. }
      unfold netTickDone.
      destruct (1 <? js_incr (networkIntervals (listener w))) eqn:G.
      * apply Z.ltb_lt in G. rewrite E in G.
        split; [shape_arith|]. split; [exact Hc|].
        apply holds_latest_adopt. lia.
      * apply Z.ltb_ge in G. rewrite E in G. pose proof MAX_EXACT_large.
        split; [shape_arith|]. split; [exact Hc|].
        apply holds_latest_first; [lia | exact Hn].
    + split; [shape_arith|]. split; [exact Hc | exact Hn].
  - (* the memory call settles *)
    unfold settle in H.
    destruct (take_out (Pending_eqb PMem) (pending w)) as [rest|] eqn:T;
      [|discriminate].
    injection H as <-. settled T. rewrite !app_nil_r.
    split; [shape_arith|]. split; [exact Hc | exact Hn].
  - (* an interval fires *)
    destruct (existsb (timer_is cb) (intervals w)) eqn:X; [|discriminate].
    injection H as <-. rewrite !app_nil_r.
    destruct cb as [|nic|].
    + pose proof (existsb_count _ is_cpu_timer _ X (fun _ E => E)).
      split; [shape_arith|]. split; [exact Hc | exact Hn].
    + assert (Hgf : forall t, timer_is (TNetTick nic) t = true ->
                              is_net_timer t = true).
      { intros [c ms] E. unfold timer_is in E. apply TimerCb_eqb_eq in E.
        simpl in E. now subst c. }
      pose proof (existsb_count _ is_net_timer _ X Hgf).
      split; [shape_arith|]. split; [exact Hc | exact Hn].
    + pose proof (existsb_count _ is_retry _ X (fun _ E => E)).
      exfalso. unfold Shape in Sh. lia.
  - (* a timeout fires *)
    destruct (take_out (timer_is cb) (timeouts w)) as [rest|] eqn:T;
      [|discriminate].
    injection H as <-. rewrite !app_nil_r.
    destruct (take_out_count _ _ _ T) as ([c ms] & Hx & Cnt).
    unfold timer_is in Hx. apply TimerCb_eqb_eq in Hx. simpl in Hx. subst c.
    pose proof (Cnt is_cpu_timer). pose proof (Cnt is_net_timer).
    pose proof (Cnt is_retry). clear Cnt.
    destruct cb as [|nic|]; simpl in *.
    + exfalso. unfold Shape in Sh. lia.
    + exfalso. unfold Shape in Sh. lia.
    + split; [shape_arith|]. split; [exact Hc | exact Hn].
  - (* a request arrives *)
    unfold the_requestListener, requestListener in H.
    destruct (urlParse_pathname (url req)) as [p|];
      [|injection H as <-; rewrite !app_nil_r; split; [exact Sh | split; [exact Hc | exact Hn]]].
    pose proof (dispatch_frame (listener w) p req res) as F.
    destruct (route (listener w) p req res) as [[[this' req'] res'] cmds].
    injection H as <-. rewrite !app_nil_r.
    cbn in F. destruct F as [[->| ->] [->| ->]]; simpl;
      (split; [shape_arith|]); (split; [exact Hc | exact Hn]).
Qed.

Lemma run_Inv (trace : list Event) (cpu net : list JsObj) (w w' : World) :
  Inv cpu net w ->
  run' w trace = Some w' ->
  Inv (cpu ++ cpu_samples trace) (net ++ net_samples trace) w'.
Proof.
  revert cpu net w; induction trace as [|ev trace IH]; intros cpu net w I H.
  - simpl in *. injection H as <-. now rewrite !app_nil_r.
  - simpl in H. destruct (step' w ev) as [w1|] eqn:E; [|discriminate].
    unfold cpu_samples, net_samples. simpl. rewrite !app_assoc.
    apply (IH _ _ w1); [|exact H]. now apply (step_Inv _ _ w).
Qed.

Lemma boot_world (a i : JsVal) (w0 : World) :
  boot' a i = Some w0 ->
  exists p ms,
    w0 = mkWorld (mkListener p ms 0 defaultCpuData defaultNetworkData
                             JNull JNull 0 0)
                 [PNetIface; PCpuSeed] [] [].
Proof.
  unfold boot, new_MetricsListener, constructor.
  destruct (normalizeApiPath a) as [p|]; [|discriminate].
  simpl. intros H. injection H as <-. eexists _, _. reflexivity.
Qed.

Lemma boot_Inv (a i : JsVal) (w0 : World) :
  boot' a i = Some w0 -> Inv [] [] w0.
Proof.
  intros H. destruct (boot_world a i w0 H) as (p & ms & ->).
  split; [|split].
  - unfold Shape. simpl. pose proof MAX_EXACT_large. lia.
  - split; simpl; [reflexivity | lia].
  - split; simpl; [reflexivity | lia].
Qed.

(** C1: the first successful sample of a cell is never adopted.  After
    any run from a construction, a cell with at most one successful sample
    still caches its default, and a cell with N >= 2 successful samples
    caches the value of one of the 2nd to N-th of them (the proof shows it
    is the latest), stamped with a capture time. *)
Theorem first_sample_is_suppressed
    (a i : JsVal) (w0 w : World) (trace : list Event) :
  boot' a i = Some w0 ->
  run' w0 trace = Some w ->
  first_suppressed defaultCpuData (cpu_samples trace)
    (lastCpuData (listener w)) /\
  first_suppressed defaultNetworkData (net_samples trace)
    (lastNetworkData (listener w)).
Proof.
  intros B R.
  destruct (run_Inv trace [] [] w0 w (boot_Inv a i w0 B) R) as (_ & Hc & Hn).
  simpl in Hc, Hn. split; now apply holds_latest_weaken.
Qed.

(** ** Defaults *)

Lemma step_keeps_caches (w w' : World) (ev : Event) :
  step' w ev = Some w' ->
  (adopts_cpu (listener w) ev = false ->
     lastCpuData (listener w') = lastCpuData (listener w)) /\
  (adopts_net (listener w) ev = false ->
     lastNetworkData (listener w') = lastNetworkData (listener w)).
Proof.
  intros H.
  destruct ev as [r|r now|r|nic r|nic r now| |cb|cb|req res]; simpl in H;
    unfold settle in H.
  - destruct (take_out _ (pending w)); [|discriminate].
    injection H as <-. destruct r; split; reflexivity.
  - destruct (take_out _ (pending w)); [|discriminate].
    injection H as <-. destruct r as [v|e]; simpl; [|split; reflexivity].
    unfold cpuTickDone.
    destruct (1 <? js_incr (cpuIntervals (listener w)));
      split; try reflexivity; discriminate.
  - destruct (take_out _ (pending w)); [|discriminate].
    injection H as <-. destruct r; split; reflexivity.
  - destruct (take_out _ (pending w)); [|discriminate].
    injection H as <-. destruct r; split; reflexivity.
  - destruct (take_out _ (pending w)); [|discriminate].
    injection H as <-. destruct r as [v|e]; simpl; [|split; reflexivity].
    unfold netTickDone.
    destruct (1 <? js_incr (networkIntervals (listener w)));
      split; try reflexivity; discriminate.
  - destruct (take_out _ (pending w)); [|discriminate].
    injection H as <-. split; reflexivity.
  - destruct (existsb _ (intervals w)); [|discriminate].
    injection H as <-. destruct cb; split; reflexivity.
  - destruct (take_out _ (timeouts w)); [|discriminate].
    injection H as <-. destruct cb; split; reflexivity.
  - unfold the_requestListener, requestListener in H.
    destruct (urlParse_pathname (url req)) as [p|];
      [|injection H as <-; split; reflexivity].
    pose proof (dispatch_frame (listener w) p req res) as F.
    destruct (route (listener w) p req res) as [[[this' req'] res'] cmds].
    injection H as <-. cbn in F.
    destruct F as [[->| ->] [->| ->]]; split; reflexivity.
Qed.

Lemma step_adoption_overwrites (w w' : World) (ev : Event) :
  step' w ev = Some w' ->
  (adopts_cpu (listener w) ev = true ->
     exists v now, lastCpuData (listener w') = stamped v now) /\
  (adopts_net (listener w) ev = true ->
     exists v now, lastNetworkData (listener w') = stamped v now).
Proof.
  intros H.
  destruct ev as [r|r now|r|nic r|nic r now| |cb|cb|req res];
    try (split; discriminate); simpl in H; unfold settle in H.
  - destruct (take_out _ (pending w)); [|discriminate].
    injection H as <-. destruct r as [v|e]; [|split; discriminate].
    split; [|discriminate]. simpl. intros G.
    unfold cpuTickDone. rewrite G. now exists v, now.
  - destruct (take_out _ (pending w)); [|discriminate].
    injection H as <-. destruct r as [v|e]; [|split; discriminate].
    split; [discriminate|]. simpl. intros G.
    unfold netTickDone. rewrite G. now exists v, now.
Qed.

Lemma quiet_run_keeps_caches (trace : list Event) (w w' : World) :
  run' w trace = Some w' ->
  (never_adopts urlParse_pathname JSON_stringify ToString adopts_cpu w trace
     = true ->
     lastCpuData (listener w') = lastCpuData (listener w)) /\
  (never_adopts urlParse_pathname JSON_stringify ToString adopts_net w trace
     = true ->
     lastNetworkData (listener w') = lastNetworkData (listener w)).
Proof.
  revert w; induction trace as [|ev trace IH]; intros w R; simpl in *.
  - injection R as <-. split; reflexivity.
  - destruct (step' w ev) as [w1|] eqn:E; [|discriminate].
    destruct (IH w1 R) as [IHc IHn].
    destruct (step_keeps_caches w w1 ev E) as [Sc Sn].
    split; intros Q; apply andb_true_iff in Q as [Q1 Q2];
      apply negb_true_iff in Q1.
    + rewrite (IHc Q2). now apply Sc.
    + rewrite (IHn Q2). now apply Sn.
Qed.

(** C8: a freshly constructed listener caches the documented defaults (CPU:
    idle 100, every other load figure 0, no cores; network: interface and
    state unknown, counters 0, both rates -1), no event changes a cached
    snapshot unless it is a tick that adopts a sample (which replaces the
    snapshot by the stamped sample), and so the defaults stay for as long as
    no sample has been adopted. *)
Theorem defaults_until_first_adoption (a i : JsVal) (w0 : World) :
  boot' a i = Some w0 ->
  let cpu := lastCpuData (listener w0) in
  let net := lastNetworkData (listener w0) in
  (get_prop cpu "currentload_idle" = JNum 100%float /\
   (forall k,
       In k ["avgload"; "currentload"; "currentload_user";
             "currentload_system"; "currentload_nice"; "currentload_irq";
             "raw_currentload"; "raw_currentload_user";
             "raw_currentload_system"; "raw_currentload_nice";
             "raw_currentload_idle"; "raw_currentload_irq"] ->
       get_prop cpu k = JNum 0%float) /\
   get_prop cpu "cpus" = JArr [] /\
   get_prop net "iface" = JStr "unknown" /\
   get_prop net "operstate" = JStr "unknown" /\
   get_prop net "rx" = JNum 0%float /\
   get_prop net "tx" = JNum 0%float /\
   get_prop net "rx_sec" = JNum (-1)%float /\
   get_prop net "tx_sec" = JNum (-1)%float) /\
  (forall w ev w',
      step' w ev = Some w' ->
      (adopts_cpu (listener w) ev = false ->
         lastCpuData (listener w') = lastCpuData (listener w)) /\
      (adopts_net (listener w) ev = false ->
         lastNetworkData (listener w') = lastNetworkData (listener w)) /\
      (adopts_cpu (listener w) ev = true ->
         exists v now, lastCpuData (listener w') = stamped v now) /\
      (adopts_net (listener w) ev = true ->
         exists v now, lastNetworkData (listener w') = stamped v now)) /\
  (forall trace w,
      run' w0 trace = Some w ->
      (never_adopts urlParse_pathname JSON_stringify ToString
         adopts_cpu w0 trace = true ->
         lastCpuData (listener w) = cpu) /\
      (never_adopts urlParse_pathname JSON_stringify ToString
         adopts_net w0 trace = true ->
         lastNetworkData (listener w) = net)).
Proof.
  intros B cpu net. subst cpu net.
  destruct (boot_world a i w0 B) as (p & ms & ->). simpl listener.
  split; [|split].
  - simpl. repeat split; try reflexivity.
    intros k H. repeat destruct H as [<-|H]; try reflexivity. contradiction.
  - intros w ev w' H.
    destruct (step_keeps_caches w w' ev H) as [Kc Kn].
    destruct (step_adoption_overwrites w w' ev H) as [Ac An].
    repeat split; assumption.
  - intros trace w R. apply (quiet_run_keeps_caches trace _ w R).
Qed.

(** ** The request counter stays where [++] is exact *)

Lemma step_requestCount (w w' : World) (ev : Event) :
  step' w ev = Some w' ->
  requestCount (listener w') = requestCount (listener w) \/
  requestCount (listener w') = js_incr (requestCount (listener w)).
Proof.
  intros H.
  destruct ev as [r|r now|r|nic r|nic r now| |cb|cb|req res]; simpl in H;
    unfold settle in H.
  - destruct (take_out _ (pending w)); [|discriminate].
    injection H as <-. destruct r; now left.
  - destruct (take_out _ (pending w)); [|discriminate].
    injection H as <-. destruct r as [v|e]; simpl; [|now left].
    unfold cpuTickDone.
    destruct (1 <? js_incr (cpuIntervals (listener w))); now left.
  - destruct (take_out _ (pending w)); [|discriminate].
    injection H as <-. destruct r; now left.
  - destruct (take_out _ (pending w)); [|discriminate].
    injection H as <-. destruct r; now left.
  - destruct (take_out _ (pending w)); [|discriminate].
    injection H as <-. destruct r as [v|e]; simpl; [|now left].
    unfold netTickDone.
    destruct (1 <? js_incr (networkIntervals (listener w))); now left.
  - destruct (take_out _ (pending w)); [|discriminate].
    injection H as <-. now left.
  - destruct (existsb _ (intervals w)); [|discriminate].
    injection H as <-. destruct cb; now left.
  - destruct (take_out _ (timeouts w)); [|discriminate].
    injection H as <-. destruct cb; now left.
  - unfold the_requestListener, requestListener in H.
    destruct (urlParse_pathname (url req)) as [p|];
      [|injection H as <-; now left].
    pose proof (dispatch_frame (listener w) p req res) as F.
    destruct (route (listener w) p req res) as [[[this' req'] res'] cmds].
    injection H as <-. cbn in F.
    destruct F as [[->| ->] [->| ->]]; simpl; auto.
Qed.

Lemma requestCount_in_range
    (a i : JsVal) (w0 w : World) (trace : list Event) :
  boot' a i = Some w0 ->
  run' w0 trace = Some w ->
  0 <= requestCount (listener w) <= MAX_EXACT.
Proof.
  intros B R.
  assert (G : 0 <= requestCount (listener w0) <= MAX_EXACT).
  { destruct (boot_world a i w0 B) as (p & ms & ->). simpl.
    pose proof MAX_EXACT_large. lia. }
  clear B. revert w0 R G.
  induction trace as [|ev trace IH]; intros w0 R G; simpl in R.
  - now injection R as <-.
  - destruct (step' w0 ev) as [w1|] eqn:E; [|discriminate].
    apply (IH w1 R).
    destruct (step_requestCount w0 w1 ev E) as [-> | ->]; [exact G|].
    unfold js_incr.
    destruct (requestCount (listener w0) <? MAX_EXACT) eqn:L; [|exact G].
    apply Z.ltb_lt in L. lia.
Qed.

(** ** The network bootstrap *)

Lemma last_cons_default {A : Type} (x d : A) (l : list A) :
  last (x :: l) d = last l x.
Proof.
  revert x d; induction l as [|y l IH]; intros x d; [reflexivity|].
  change (last (x :: y :: l) d) with (last (y :: l) d).
  now rewrite (IH y d), (IH y x).
Qed.

(** Any number of failed resolutions in a row brings the world back to
    where the bootstrap started, with the latest failure recorded. *)
Lemma retry_loop (errors : list JsVal) (this : Listener) :
  exists this',
    run' (mkWorld this [PNetIface; PCpuSeed] [] []) (failed_attempts errors) =
      Some (mkWorld this' [PNetIface; PCpuSeed] [] []) /\
    lastNetworkError this' = last errors (lastNetworkError this) /\
    interval this' = interval this.
Proof.
  revert this; induction errors as [|e errors IH]; intros this.
  - exists this. repeat split.
  - destruct (IH (set_networkIntervals 0 (set_lastNetworkError e this)))
      as (this' & R & E & I).
    exists this'. split; [exact R|]. split; [|exact I].
    rewrite E. simpl lastNetworkError. now rewrite last_cons_default.
Qed.

(** C9: a failed interface resolution is stored as the network cell's
    lastError and arms a 1000 ms timeout; when the timeout fires
    [_initNetworkMonitoring] runs again from its first line and the
    resolution is back in flight; and there is no bound: after any number
    of failures in a row the bootstrap is still being retried, and the
    first resolution that succeeds goes on to the seed call and starts the
    interval. *)
Theorem bootstrap_retries_forever :
  (forall w e w',
      step' w (NetIfaceSettles (Rejected e)) = Some w' ->
      lastNetworkError (listener w') = e /\
      timeouts w' = (TNetRetry, 1000) :: timeouts w /\
      intervals w' = intervals w /\
      take_out (Pending_eqb PNetIface) (pending w) = Some (pending w')) /\
  (forall w w',
      step' w (TimeoutFires TNetRetry) = Some w' ->
      listener w' = fst (_initNetworkMonitoring (listener w)) /\
      pending w' = PNetIface :: pending w /\
      intervals w' = intervals w /\
      take_out (timer_is TNetRetry) (timeouts w) = Some (timeouts w')) /\
  (forall a i w0 errors nic r,
      boot' a i = Some w0 ->
      exists w w2,
        run' w0 (failed_attempts errors) = Some w /\
        pending w = pending w0 /\
        In PNetIface (pending w) /\
        lastNetworkError (listener w) = last errors JNull /\
        run' w [NetIfaceSettles (Resolved nic); NetSeedSettles nic r]
          = Some w2 /\
        intervals w2 = [(TNetTick nic, interval (listener w0))]).
Proof.
  split; [|split].
  - intros w e w' H. simpl in H. unfold settle in H.
    destruct (take_out _ (pending w)) as [rest|]; [|discriminate].
    injection H as <-. repeat split.
  - intros w w' H. simpl in H.
    destruct (take_out _ (timeouts w)) as [rest|]; [|discriminate].
    injection H as <-. repeat split.
  - intros a i w0 errors nic r B.
    destruct (boot_world a i w0 B) as (p & ms & ->).
    match goal with
    | |- context [mkWorld ?this _ _ _] =>
        destruct (retry_loop errors this) as (this' & R & E & I)
    end.
    simpl in E, I.
    exists (mkWorld this' [PNetIface; PCpuSeed] [] []).
    exists (commit (mkWorld this' [PCpuSeed] [] [])
                   (netSeedDone this' nic r)).
    split; [exact R|]. split; [reflexivity|]. split; [now left|].
    split; [exact E|].
    split; [simpl; unfold settle; simpl; now rewrite String.eqb_refl|].
    simpl. rewrite <- I. now destruct r.
Qed.

End LoopProperties.

(** ** The model at work *)

Example boot_default :
  boot pathname_of_target stringify_stub tostring_stub JUndefined JUndefined
  = Some default_world.
Proof. reflexivity. Qed.

Example run_two_samples_each :
  run pathname_of_target stringify_stub tostring_stub
      default_world two_samples_each
  = Some after_two_samples_each.
Proof. reflexivity. Qed.

Example run_one_sample_each :
  run pathname_of_target stringify_stub tostring_stub
      default_world one_sample_each
  = Some after_one_sample_each.
Proof. reflexivity. Qed.

(** Two successful samples per cell: each cache holds the second one. *)
Lemma first_sample_is_suppressed_witness :
  first_suppressed defaultCpuData
    [[("currentload", JNum 1%float)]; [("currentload", JNum 2%float)]]
    [("currentload", JNum 2%float); ("dateCaptured", JNum 1700000000%float)] /\
  first_suppressed defaultNetworkData
    [[("rx", JNum 10%float)]; [("rx", JNum 20%float)]]
    [("rx", JNum 20%float); ("dateCaptured", JNum 1700000001%float)].
Proof.
  exact (first_sample_is_suppressed
           pathname_of_target stringify_stub tostring_stub
           JUndefined JUndefined default_world after_two_samples_each
           two_samples_each eq_refl eq_refl).
Defined.

(** One successful sample per cell, failures and requests around it: both
    caches still hold the defaults. *)
Lemma defaults_until_first_adoption_witness :
  lastCpuData (listener after_one_sample_each) = defaultCpuData /\
  lastNetworkData (listener after_one_sample_each) = defaultNetworkData.
Proof.
  destruct (defaults_until_first_adoption
              pathname_of_target stringify_stub tostring_stub
              JUndefined JUndefined default_world eq_refl)
    as (_ & _ & Q).
  destruct (Q one_sample_each after_one_sample_each eq_refl) as [Qc Qn].
  split; [apply Qc | apply Qn]; reflexivity.
Defined.

(** Three failed resolutions, and the fourth attempt goes through. *)
Lemma bootstrap_retries_forever_witness :
  exists w w2,
    run pathname_of_target stringify_stub tostring_stub default_world
        (failed_attempts [JStr "first"; JStr "second"; JStr "third"])
      = Some w /\
    pending w = pending default_world /\
    In PNetIface (pending w) /\
    lastNetworkError (listener w) = JStr "third" /\
    run pathname_of_target stringify_stub tostring_stub w
        [NetIfaceSettles (Resolved "eth0");
         NetSeedSettles "eth0" (Resolved [("rx", JNum 10%float)])]
      = Some w2 /\
    intervals w2 = [(TNetTick "eth0", 1000)].
Proof.
  exact (proj2 (proj2 (bootstrap_retries_forever
                         pathname_of_target stringify_stub tostring_stub))
           JUndefined JUndefined default_world
           [JStr "first"; JStr "second"; JStr "third"]
           "eth0" (Resolved [("rx", JNum 10%float)]) eq_refl).
Defined.

(** ** Failing samples *)

(** On the CPU cell every failing sample is recorded and the snapshot is
    kept: the seed call and the tick both carry a [catch]. *)
Lemma cpu_rejection_is_recorded (this : Listener) (e : JsVal) (now : float) :
  (lastCpuError (fst (cpuSeedDone this (Rejected e))) = e /\
   lastCpuData (fst (cpuSeedDone this (Rejected e))) = lastCpuData this) /\
  (lastCpuError (fst (cpuTickDone this (Rejected e) now)) = e /\
   lastCpuData (fst (cpuTickDone this (Rejected e) now)) = lastCpuData this).
Proof. repeat split. Qed.

Lemma network_seed_rejection_is_recorded
    (this : Listener) (nic : string) (e : JsVal) :
  lastNetworkError (fst (netSeedDone this nic (Rejected e))) = e /\
  lastNetworkData (fst (netSeedDone this nic (Rejected e)))
  = lastNetworkData this.
Proof. repeat split. Qed.

(** C2 does not hold of the network cell: the promise of a network tick has
    no [catch], so a tick that is rejected changes nothing, lastError
    included.  Here the cell has adopted a sample and the next tick is
    rejected with "EIO": lastNetworkError is still null.  The same run on
    the CPU cell records the error. *)
Theorem network_tick_rejection_is_lost :
  (forall this e now, netTickDone this (Rejected e) now = (this, [])) /\
  option_map
    (fun w => (lastNetworkError (listener w), lastNetworkData (listener w)))
    (run pathname_of_target stringify_stub tostring_stub
         default_world rejected_network_tick)
  = Some (JNull,
          [("rx", JNum 20%float); ("dateCaptured", JNum 1700000001%float)]) /\
  option_map
    (fun w => (lastCpuError (listener w), lastCpuData (listener w)))
    (run pathname_of_target stringify_stub tostring_stub
         default_world rejected_cpu_tick)
  = Some (JStr "EIO",
          [("currentload", JNum 2%float);
           ("dateCaptured", JNum 1700000001%float)]).
Proof. repeat split. Qed.

(** ** Requests without a path *)

(** C6 does not hold of a request whose URL has no pathname.  Such a path
    neither equals the prefix nor starts with it, yet the handler does not
    count the request and return: the test of line 167 calls [startsWith]
    on null and throws.  Here the target is x://h; next to it, the request
    for /other/path, which is counted and left alone as the claim says. *)
Theorem pathless_request_makes_the_handler_throw :
  (forall JSON_stringify ToString this req res,
      requestListener (fun _ => None) JSON_stringify ToString this req res
      = None) /\
  pathname_of_target "x://h" = None /\
  requestListener pathname_of_target stringify_stub tostring_stub
    default_listener (mkRequest "x://h" JUndefined) [] = None /\
  requestListener pathname_of_target stringify_stub tostring_stub
    default_listener (mkRequest "/other/path" JUndefined) []
  = Some (set_requestCount 1 default_listener,
          mkRequest "/other/path" JUndefined, [], []).
Proof. repeat split. Qed.

(** C3 does not hold of a request whose URL has no pathname: it is not for
    one of the routes, and the counter does not go up, because the handler
    throws before [requestCount++].  After the request for x://h the
    counter is still 0 and /metrics/requests/total reports 0; after the
    request for /other/path it is 1. *)
Theorem pathless_request_is_not_counted :
  (forall JSON_stringify ToString w req res,
      step (fun _ => None) JSON_stringify ToString w (RequestArrives req res)
      = Some w) /\
  option_map (fun w => requestCount (listener w))
    (run pathname_of_target stringify_stub tostring_stub default_world
       [RequestArrives (mkRequest "x://h" JUndefined) []]) = Some 0 /\
  option_map
    (fun w =>
       option_map (fun out => ended_with (response_after out))
         (requestListener pathname_of_target stringify_stub tostring_stub
            (listener w) (mkRequest "/metrics/requests/total" JUndefined) []))
    (run pathname_of_target stringify_stub tostring_stub default_world
       [RequestArrives (mkRequest "x://h" JUndefined) []])
  = Some (Some [Some (metric_json "0")]) /\
  option_map (fun w => requestCount (listener w))
    (run pathname_of_target stringify_stub tostring_stub default_world
       [RequestArrives (mkRequest "/other/path" JUndefined) []]) = Some 1.
Proof. repeat split. Qed.

(** ** What [new] returns *)

Lemma nth_error_put_other {A : Type} (n m : nat) (x : A) (l : list A) :
  m <> n -> nth_error (put n x l) m = nth_error l m.
Proof.
  revert n m; induction l as [|y l IH]; intros n m N; [now destruct n|].
  destruct n as [|n]; destruct m as [|m]; simpl; try reflexivity.
  - now elim N.
  - apply IH. lia.
Qed.

Lemma nth_error_put_same {A : Type} (n : nat) (x y : A) (l : list A) :
  nth_error l n = Some y -> nth_error (put n x l) n = Some x.
Proof.
  revert n; induction l as [|z l IH]; intros [|n] H; simpl in *;
    try discriminate; [reflexivity | now apply IH].
Qed.

Lemma put_same {A : Type} (n : nat) (x : A) (l : list A) :
  nth_error l n = Some x -> put n x l = l.
Proof.
  revert n; induction l as [|z l IH]; intros [|n] H; simpl in *;
    try discriminate.
  - now injection H as ->.
  - now rewrite IH.
Qed.

Lemma commit_nothing (w : World) : commit w (listener w, []) = w.
Proof. now destruct w. Qed.

Section ProcessProperties.

Variable urlParse_pathname : string -> option string.
Variable JSON_stringify : JsVal -> option string.
Variable ToString : JsVal -> string.

Local Notation "'handle'" :=
  (requestListener urlParse_pathname JSON_stringify ToString).
Local Notation "'success'" := (successResponse JSON_stringify).
Local Notation "'failure'" := (errorResponse JSON_stringify).
Local Notation "'step''" := (step urlParse_pathname JSON_stringify ToString).
Local Notation "'boot''" := (boot urlParse_pathname JSON_stringify ToString).
Local Notation "'construct''" :=
  (construct urlParse_pathname JSON_stringify ToString).

Lemma construct_closure (proc proc' : Process) (a i : JsVal) (v : Ref) :
  construct' proc a i = Some (v, proc') ->
  exists w0,
    boot' a i = Some w0 /\
    proc' = (proc ++ [w0])%list /\
    v = ClosureRef handle (List.length proc).
Proof.
  unfold construct, boot, new_MetricsListener, constructor.
  destruct (normalizeApiPath a) as [p|]; [|discriminate].
  simpl. intros H. injection H as <- <-.
  eexists. repeat split.
Qed.

(** A call of the closure is the arrival of the request at the instance it
    is bound to. *)
Lemma call_closure (addr : nat) (q : Process) (w : World)
    (req : Request) (res : Response)
    (out : Listener * Request * Response * list Cmd) :
  nth_error q addr = Some w ->
  handle (listener w) req res = Some out ->
  call (ClosureRef handle addr) q req res
  = Done (put addr (commit w (listener_after out, commands_of out)) q)
         (request_after out) (response_after out) /\
  step' w (RequestArrives req res)
  = Some (commit w (listener_after out, commands_of out)).
Proof.
  intros N H. unfold call. simpl. unfold the_requestListener.
  rewrite N, H. now destruct out as [[[this req'] res'] cmds].
Qed.

(** A call that leaves the instance and issues nothing leaves the
    process. *)
Lemma call_reads (addr : nat) (q : Process) (w : World)
    (req req' : Request) (res res' : Response) :
  nth_error q addr = Some w ->
  handle (listener w) req res = Some (listener w, req', res', []) ->
  call (ClosureRef handle addr) q req res = Done q req' res'.
Proof.
  intros N H. destruct (call_closure addr q w req res _ N H) as [C _].
  rewrite C. cbn [listener_after commands_of request_after response_after
                  fst snd].
  now rewrite commit_nothing, (put_same _ _ _ N).
Qed.

(** C10: the value of [new MetricsListener(...)] is the arrow function of
    [requestListener()] closed over the new instance, not the instance.
    The instance is allocated at a fresh address and started as the
    construction starts it; the value gives its holder no instance to read
    or write, and differs from the value of every later construction.  What
    the holder can do is call it, and a call reaches the instance only as
    the handler does: on a request without a path it throws; otherwise it is
    the arrival of the request at the bound instance, every other instance
    of the process is left as it was, and the answer shows the instance's
    state: /health answers 200 with ok, /requests/total the counter, /cpu
    the cached snapshot or error, all three leaving the process as it was,
    and a path outside the prefix moves the counter of the bound instance
    and nothing else, with the request unclaimed and nothing written. *)
Theorem new_returns_the_handler
    (proc proc' : Process) (a i : JsVal) (v : Ref) :
  construct' proc a i = Some (v, proc') ->
  exists w0,
    boot' a i = Some w0 /\
    proc' = (proc ++ [w0])%list /\
    v = ClosureRef handle (List.length proc) /\
    (forall addr, v <> InstanceRef addr) /\
    instance_of v proc' = None /\
    (forall a2 i2 v2 proc2,
        construct' proc' a2 i2 = Some (v2, proc2) -> v2 <> v) /\
    forall (q : Process) (w : World) (req : Request) (res : Response),
      nth_error q (List.length proc) = Some w ->
      match urlParse_pathname (url req) with
      | None => call v q req res = Threw
      | Some pathname =>
          exists w' req' res',
            call v q req res = Done (put (List.length proc) w' q) req' res' /\
            step' w (RequestArrives req res) = Some w' /\
            nth_error (put (List.length proc) w' q) (List.length proc)
            = Some w' /\
            (forall addr,
                addr <> List.length proc ->
                nth_error (put (List.length proc) w' q) addr
                = nth_error q addr) /\
            (pathname = apiPath (listener w) ++ "/health" ->
             call v q req res
             = Done q (claimed req)
                    (res ++ [SetStatusCode 200; End (Some "ok")])%list) /\
            (pathname = apiPath (listener w) ++ "/requests/total" ->
             call v q req res
             = Done q (claimed req)
                    (success res
                       (JStr (metric_json
                                (counter_to_string
                                   (requestCount (listener w))))))) /\
            (pathname = apiPath (listener w) ++ "/cpu" ->
             call v q req res
             = Done q (claimed req)
                    (if truthy (lastCpuError (listener w))
                     then failure res (lastCpuError (listener w))
                     else success res (JObj (lastCpuData (listener w))))) /\
            (outside_prefix (apiPath (listener w)) pathname ->
             w' = mkWorld (set_requestCount
                             (js_incr (requestCount (listener w)))
                             (listener w))
                          (pending w) (intervals w) (timeouts w) /\
             req' = req /\ res' = res)
      end.
Proof.
  intros H. destruct (construct_closure _ _ _ _ _ H) as (w0 & B & -> & ->).
  exists w0. split; [exact B|]. split; [reflexivity|].
  split; [reflexivity|]. split; [discriminate|]. split; [reflexivity|].
  split.
  { intros a2 i2 v2 proc2 H2.
    destruct (construct_closure _ _ _ _ _ H2) as (w2 & _ & _ & ->).
    intros E. injection E as E. rewrite length_app in E. simpl in E. lia. }
  intros q w req res N.
  destruct (urlParse_pathname (url req)) as [pathname|] eqn:P.
  - pose proof (handle_some urlParse_pathname JSON_stringify ToString
                  (listener w) req res pathname P) as Hh.
    destruct (call_closure _ q w req res _ N Hh) as [C S].
    eexists _, _, _. split; [exact C|]. split; [exact S|].
    split; [exact (nth_error_put_same _ _ _ _ N)|].
    split; [intros addr A; now apply nth_error_put_other|].
    split; [|split; [|split; [|]]].
    + intros ->. apply (call_reads _ _ _ _ _ _ _ N).
      now apply health_route.
    + intros ->. apply (call_reads _ _ _ _ _ _ _ N).
      now apply total_route.
    + intros ->. apply (call_reads _ _ _ _ _ _ _ N).
      rewrite (cpu_route urlParse_pathname JSON_stringify ToString
                 _ req res P).
      now destruct (truthy (lastCpuError (listener w))).
    + intros O.
      rewrite (dispatch_outside JSON_stringify ToString
                 (listener w) pathname req res O).
      repeat split.
  - unfold call. simpl. unfold the_requestListener, requestListener.
    now rewrite N, P.
Qed.

End ProcessProperties.

(** A construction with prefix "/m/" and interval 250 in a process that
    has no instance yet: the value is the closure bound to address 0, which
    reports the counter, counts a request outside the prefix, throws on a
    request without a path, and is not the value of a later construction. *)
Lemma new_returns_the_handler_witness :
  let h := requestListener pathname_of_target stringify_stub tostring_stub in
  let w := mkWorld (mkListener "/m" 250 0 defaultCpuData defaultNetworkData
                               JNull JNull 0 0)
                   [PNetIface; PCpuSeed] [] [] in
  construct pathname_of_target stringify_stub tostring_stub
    [] (JStr "/m/") (JNum 250%float) = Some (ClosureRef h 0, [w]) /\
  call (ClosureRef h 0) [w] (mkRequest "/m/requests/total" JUndefined) []
  = Done [w] (mkRequest "/m/requests/total" (JBool true))
         (successResponse stringify_stub [] (JStr (metric_json "0"))) /\
  call (ClosureRef h 0) [w] (mkRequest "/other" JUndefined) []
  = Done [mkWorld (mkListener "/m" 250 1 defaultCpuData defaultNetworkData
                              JNull JNull 0 0)
                  [PNetIface; PCpuSeed] [] []]
         (mkRequest "/other" JUndefined) [] /\
  call (ClosureRef h 0) [w] (mkRequest "x://h" JUndefined) [] = Threw /\
  (forall a2 i2 v2 proc2,
      construct pathname_of_target stringify_stub tostring_stub
        [w] a2 i2 = Some (v2, proc2) ->
      v2 <> ClosureRef h 0).
Proof.
  intros h w.
  split; [reflexivity|]. split; [reflexivity|]. split; [reflexivity|].
  split; [reflexivity|].
  destruct (new_returns_the_handler
              pathname_of_target stringify_stub tostring_stub
              [] [w] (JStr "/m/") (JNum 250%float) (ClosureRef h 0) eq_refl)
    as (w0 & _ & _ & _ & _ & _ & D & _).
  exact D.
Defined.

(** * Further properties of the listener *)

(** ** Constructor arguments *)

(** The effective interval is always a positive integer: the argument when
    it is an integer of at least 1, and 1000 for anything else. *)
Theorem interval_is_positive (v : JsVal) :
  1 <= normalizeInterval v /\
  (normalizeInterval v = DEFAULT_INTERVAL \/
   exists f, v = JNum f /\ Number_isInteger v = true /\
             normalizeInterval v = Z_of_float f) /\
  (Number_isInteger v = false -> normalizeInterval v = DEFAULT_INTERVAL) /\
  (forall f, v = JNum f ->
     Number_isInteger v = true ->
     normalizeInterval v =
     if Z_of_float f <? 1 then DEFAULT_INTERVAL else Z_of_float f).
Proof.
  assert (D : 1 <= DEFAULT_INTERVAL) by discriminate.
  destruct v as [| |b|f|s|l|o];
    try (split; [exact D | split; [now left | split; [reflexivity|]]];
         intros f0 E; discriminate E).
  unfold normalizeInterval.
  destruct (Number_isInteger (JNum f)) eqn:E; simpl.
  - destruct (Z_of_float f <? 1) eqn:L.
    + split; [exact D | split; [now left | split; [discriminate|]]].
      intros f0 E0 _. injection E0 as <-. now rewrite L.
    + apply Z.ltb_ge in L. split; [exact L | split; [|split; [discriminate|]]].
      * right. exists f. repeat split.
      * intros f0 E0 _. injection E0 as <-.
        apply Z.ltb_ge in L. now rewrite L.
  - split; [exact D | split; [now left | split; [reflexivity | discriminate]]].
Qed.

Lemma strip_fixed (p : string) :
  endsWith p "/" = false -> strip_trailing_slashes p = p.
Proof.
  intros H. unfold strip_trailing_slashes.
  destruct (String.length p); simpl; [reflexivity | now rewrite H].
Qed.

(** Whatever the argument, an effective prefix is never empty, never ends
    with a slash, and is a fixed point of the normalisation: constructing
    with an effective prefix gives that prefix back. *)
Theorem prefix_is_well_formed (a : JsVal) (p : string) :
  normalizeApiPath a = Some p ->
  p <> "" /\
  endsWith p "/" = false /\
  normalizeApiPath (JStr p) = Some p.
Proof.
  intros H.
  assert (W : p <> "" /\ endsWith p "/" = false).
  { unfold normalizeApiPath in H.
    destruct (if truthy a then a else JStr DEFAULT_PATH_PREFIX)
      as [| |b|f|s|l|o]; try discriminate.
    destruct (strip_trailing_slashes_spec s) as [Hend _].
    destruct (String.eqb (strip_trailing_slashes s) "") eqn:E;
      injection H as <-.
    - split; [discriminate | reflexivity].
    - apply String.eqb_neq in E. split; assumption. }
  destruct W as [Hne Hend]. split; [exact Hne|]. split; [exact Hend|].
  unfold normalizeApiPath.
  apply String.eqb_neq in Hne. simpl. rewrite Hne. simpl.
  rewrite (strip_fixed p Hend), Hne. reflexivity.
Qed.

Lemma prefix_is_well_formed_witness :
  "/api/v1" <> "" /\
  endsWith "/api/v1" "/" = false /\
  normalizeApiPath (JStr "/api/v1") = Some "/api/v1".
Proof. exact (prefix_is_well_formed (JStr "/api/v1///") "/api/v1" eq_refl). Defined.

Lemma append_not_self (p tail : string) : tail <> "" -> p ++ tail <> p.
Proof.
  intros Hne E. induction p as [|c p IH]; simpl in E.
  - now elim Hne.
  - injection E as E. now apply IH.
Qed.

Section MoreRouterProperties.

Variable urlParse_pathname : string -> option string.
Variable JSON_stringify : JsVal -> option string.
Variable ToString : JsVal -> string.

Local Notation "'handle'" :=
  (requestListener urlParse_pathname JSON_stringify ToString).
Local Notation "'route'" := (dispatch JSON_stringify ToString).
Local Notation "'success'" := (successResponse JSON_stringify).
Local Notation "'failure'" := (errorResponse JSON_stringify).
Local Notation "'step''" := (step urlParse_pathname JSON_stringify ToString).
Local Notation "'run''" := (run urlParse_pathname JSON_stringify ToString).
Local Notation "'boot''" := (boot urlParse_pathname JSON_stringify ToString).

(** Construction throws exactly when the [apiPath] argument is truthy and
    not a string; the interval argument never makes it fail. *)
Theorem construction_fails_iff (a i : JsVal) :
  new_MetricsListener urlParse_pathname JSON_stringify ToString a i = None <->
  (truthy a = true /\ forall s, a <> JStr s).
Proof.
  unfold new_MetricsListener, constructor, normalizeApiPath.
  destruct a as [| |b|f|s|l|o]; simpl;
    try (split; [discriminate | intros [T _]; discriminate T]);
    try (split; [intros _; split; [reflexivity | discriminate]
                | reflexivity]).
  - destruct b; simpl.
    + split; [intros _; split; [reflexivity | discriminate] | reflexivity].
    + split; [discriminate | intros [T _]; discriminate T].
  - destruct (negb (PrimFloat.eqb f 0) && PrimFloat.eqb f f); simpl.
    + split; [intros _; split; [reflexivity | discriminate] | reflexivity].
    + split; [discriminate | intros [T _]; discriminate T].
  - destruct (negb (String.eqb s "")); simpl;
      (split; [discriminate | intros [_ N]; now elim (N s)]).
Qed.

(** ** The handler *)


Lemma gate_under (prefix p : string) :
  under_prefix prefix p ->
  negb (String.eqb p prefix) && negb (startsWith p (prefix ++ "/")) = false.
Proof.
  intros [-> | H].
  - now rewrite String.eqb_refl.
  - rewrite H. apply andb_false_r.
Qed.

Lemma is_route_false (prefix p : string) :
  is_route prefix p = false ->
  String.eqb p (prefix ++ "/health") = false /\
  String.eqb p (prefix ++ "/requests/total") = false /\
  String.eqb p (prefix ++ "/cpu") = false /\
  String.eqb p (prefix ++ "/memory") = false /\
  String.eqb p (prefix ++ "/network") = false /\
  String.eqb p (prefix ++ "/network/rx") = false /\
  String.eqb p (prefix ++ "/network/tx") = false.
Proof.
  unfold is_route, routes. simpl. rewrite !orb_false_r.
  intros H. repeat (apply orb_false_iff in H as [? H]). repeat split; assumption.
Qed.

Lemma is_route_In (prefix p : string) :
  is_route prefix p = true <-> In p (routes prefix).
Proof.
  unfold is_route. rewrite existsb_exists. split.
  - intros (r & Hr & E). apply String.eqb_eq in E. now subst.
  - intros H. exists p. split; [exact H | apply String.eqb_refl].
Qed.

(** The handler matches the prefix by whole path segment: a request whose
    path continues the prefix with anything but a slash (/metricsx for the
    prefix /metrics) is treated as foreign, that is left unclaimed, counted
    and not answered; a request whose path continues the prefix with a
    slash is claimed. *)
Theorem prefix_matches_whole_segments
    (this : Listener) (req : Request) (res : Response) (tail : string) :
  urlParse_pathname (url req) = Some (apiPath this ++ tail) ->
  (tail <> "" -> String.prefix "/" tail = false ->
     handle this req res =
     Some (set_requestCount (js_incr (requestCount this)) this, req, res, []))
  /\
  (String.prefix "/" tail = true ->
     exists out,
       handle this req res = Some out /\ request_after out = claimed req).
Proof.
  intros E. unfold requestListener. rewrite E. split.
  - intros Hne Hp. f_equal. unfold dispatch.
    assert (G : negb (String.eqb (apiPath this ++ tail) (apiPath this)) &&
                negb (startsWith (apiPath this ++ tail) (apiPath this ++ "/"))
                = true).
    { apply andb_true_iff. split; apply negb_true_iff.
      - apply String.eqb_neq. now apply append_not_self.
      - unfold startsWith. now rewrite prefix_append. }
    now rewrite G.
  - intros Hp. eexists. split; [reflexivity|]. unfold dispatch.
    rewrite gate_passes by exact Hp.
    repeat match goal with
           | |- context [if ?c then _ else _] => destruct c
           end; reflexivity.
Qed.


(** A request under the prefix is answered exactly once: every route but
    the memory route ends the response once on the spot, with status 200,
    404 or 500; the memory route writes nothing on the spot and ends the
    response once, with 200 or 500, when [mem()] settles. *)
Theorem claimed_request_is_answered_once
    (this : Listener) (req : Request) (res : Response) (pathname : string) :
  urlParse_pathname (url req) = Some pathname ->
  under_prefix (apiPath this) pathname ->
  exists out,
    handle this req res = Some out /\
    (pathname = apiPath this ++ "/memory" ->
       response_after out = res /\
       forall r now,
         exists b c,
           ended_with (memDone JSON_stringify res r now)
             = (ended_with res ++ [b])%list /\
           statusCode_of (memDone JSON_stringify res r now) = Some c /\
           (c = 200 \/ c = 500)) /\
    (pathname <> apiPath this ++ "/memory" ->
       exists b c,
         ended_with (response_after out) = (ended_with res ++ [b])%list /\
         statusCode_of (response_after out) = Some c /\
         (c = 200 \/ c = 404 \/ c = 500)).
Proof.
  intros Ep U. unfold requestListener. rewrite Ep.
  eexists. split; [reflexivity|]. unfold dispatch.
  rewrite (gate_under _ _ U). split.
  - intros ->. rewrite !eqb_append_l. simpl. split; [reflexivity|].
    intros [v|e] now; simpl; unfold successResponse, errorResponse;
      rewrite ended_with_app, statusCode_of_app; simpl;
      eexists _, _; (split; [reflexivity|]); (split; [reflexivity|]); auto.
  - intros N. apply String.eqb_neq in N. rewrite N.
    unfold successResponse, errorResponse.
    repeat match goal with
           | |- context [if ?c then _ else _] => destruct c
           end; cbn -[ended_with statusCode_of];
      rewrite ended_with_app, statusCode_of_app; simpl;
      eexists _, _; (split; [reflexivity|]); (split; [reflexivity|]); auto.
Qed.

(** A path under the prefix that is none of the seven routes, the bare
    prefix included, is claimed, counted, and answered 404 with an empty
    body. *)
Theorem unknown_path_gets_404
    (this : Listener) (req : Request) (res : Response) (pathname : string) :
  urlParse_pathname (url req) = Some pathname ->
  under_prefix (apiPath this) pathname ->
  is_route (apiPath this) pathname = false ->
  handle this req res =
  Some (set_requestCount (js_incr (requestCount this)) this, claimed req,
        (res ++ [SetStatusCode 404; End None])%list, []).
Proof.
  intros Ep U R. unfold requestListener. rewrite Ep. f_equal.
  unfold dispatch. rewrite (gate_under _ _ U).
  destruct (is_route_false _ _ R) as (-> & -> & -> & -> & -> & -> & ->).
  reflexivity.
Qed.

(** What the body of the handler does to the counter, as a test on the
    path. *)
Lemma dispatch_counts (this : Listener) (p : string)
    (req : Request) (res : Response) :
  requestCount (listener_after (route this p req res)) =
  if is_route (apiPath this) p
  then requestCount this
  else js_incr (requestCount this).
Proof.
  destruct (is_route (apiPath this) p) eqn:R.
  - assert (U : under_prefix (apiPath this) p).
    { right. apply route_under_prefix. now apply is_route_In. }
    unfold dispatch. rewrite (gate_under _ _ U).
    repeat match goal with
           | |- context [if String.eqb p ?r then _ else _] =>
               let E := fresh "E" in destruct (String.eqb p r) eqn:E
           | |- context [if truthy ?e then _ else _] => destruct (truthy e)
           end; try reflexivity.
    exfalso. unfold is_route, routes in R. simpl in R.
    rewrite E, E0, E1, E2, E3, E4, E5 in R. discriminate R.
  - unfold dispatch.
    destruct (negb (String.eqb p (apiPath this)) &&
              negb (startsWith p (apiPath this ++ "/"))); [reflexivity|].
    destruct (is_route_false _ _ R) as (-> & -> & -> & -> & -> & -> & ->).
    reflexivity.
Qed.

End MoreRouterProperties.

Lemma prefix_matches_whole_segments_witness :
  requestListener pathname_of_target stringify_stub tostring_stub
    default_listener (mkRequest "/metricsx/cpu" JUndefined) [] =
  Some (set_requestCount 1 default_listener,
        mkRequest "/metricsx/cpu" JUndefined, [], []) /\
  exists out,
    requestListener pathname_of_target stringify_stub tostring_stub
      default_listener (mkRequest "/metrics/cpu/extra" JUndefined) []
      = Some out /\
    request_after out = claimed (mkRequest "/metrics/cpu/extra" JUndefined).
Proof.
  split.
  - apply (proj1 (prefix_matches_whole_segments
                    pathname_of_target stringify_stub tostring_stub
                    default_listener (mkRequest "/metricsx/cpu" JUndefined) []
                    "x/cpu" eq_refl));
      [discriminate | reflexivity].
  - apply (proj2 (prefix_matches_whole_segments
                    pathname_of_target stringify_stub tostring_stub
                    default_listener
                    (mkRequest "/metrics/cpu/extra" JUndefined) []
                    "/cpu/extra" eq_refl)).
    reflexivity.
Defined.


Lemma claimed_request_is_answered_once_witness :
  exists out,
    requestListener pathname_of_target stringify_stub tostring_stub
      default_listener (mkRequest "/metrics/network/rx" JUndefined)
      [SetHeader "X-Served-By" "edge"] = Some out /\
    exists b c,
      ended_with (response_after out)
        = (ended_with [SetHeader "X-Served-By" "edge"] ++ [b])%list /\
      statusCode_of (response_after out) = Some c /\
      (c = 200 \/ c = 404 \/ c = 500).
Proof.
  destruct (claimed_request_is_answered_once
              pathname_of_target stringify_stub tostring_stub
              default_listener
              (mkRequest "/metrics/network/rx" JUndefined)
              [SetHeader "X-Served-By" "edge"]
              "/metrics/network/rx" eq_refl (or_intror eq_refl))
    as (out & E & _ & H).
  exists out. split; [exact E|]. apply H. discriminate.
Defined.

(** The bare prefix, with a query string. *)
Lemma unknown_path_gets_404_witness :
  requestListener pathname_of_target stringify_stub tostring_stub
    default_listener (mkRequest "/metrics?verbose" JUndefined) [] =
  Some (set_requestCount 1 default_listener,
        claimed (mkRequest "/metrics?verbose" JUndefined),
        [SetStatusCode 404; End None], []).
Proof.
  exact (unknown_path_gets_404
           pathname_of_target stringify_stub tostring_stub
           default_listener (mkRequest "/metrics?verbose" JUndefined) []
           "/metrics" eq_refl (or_introl eq_refl) eq_refl).
Defined.

(** ** Runs of the listener *)

Lemma counter_round_trip (n : Z) :
  counter_of_string (counter_to_string n) = Some n.
Proof.
  unfold counter_of_string, counter_to_string.
  rewrite NilZero.isi.
  - simpl. now rewrite DecimalZ.of_to.
  - intros E. assert (H : n = 0) by (rewrite <- (DecimalZ.of_to n), E; reflexivity).
    subst n. discriminate E.
  - intros E. assert (H : n = 0) by (rewrite <- (DecimalZ.of_to n), E; reflexivity).
    subst n. discriminate E.
Qed.

Section MoreLoopProperties.

Variable urlParse_pathname : string -> option string.
Variable JSON_stringify : JsVal -> option string.
Variable ToString : JsVal -> string.

Local Notation "'handle'" :=
  (requestListener urlParse_pathname JSON_stringify ToString).
Local Notation "'route'" := (dispatch JSON_stringify ToString).
Local Notation "'success'" := (successResponse JSON_stringify).
Local Notation "'failure'" := (errorResponse JSON_stringify).
Local Notation "'step''" := (step urlParse_pathname JSON_stringify ToString).
Local Notation "'run''" := (run urlParse_pathname JSON_stringify ToString).
Local Notation "'boot''" := (boot urlParse_pathname JSON_stringify ToString).

(** What one turn of the loop does to the configuration and the request
    counter. *)
Lemma step_listener (w w' : World) (ev : Event) :
  step' w ev = Some w' ->
  apiPath (listener w') = apiPath (listener w) /\
  interval (listener w') = interval (listener w) /\
  requestCount (listener w') =
  match ev with
  | RequestArrives req res =>
      if is_counted urlParse_pathname (apiPath (listener w)) req
      then js_incr (requestCount (listener w))
      else requestCount (listener w)
  | _ => requestCount (listener w)
  end.
Proof.
  intros H.
  destruct ev as [r|r now|r|nic r|nic r now| |cb|cb|req res]; simpl in H;
    unfold settle in H.
  - destruct (take_out _ (pending w)); [|discriminate].
    injection H as <-. destruct r; repeat split.
  - destruct (take_out _ (pending w)); [|discriminate].
    injection H as <-. destruct r as [v|e]; simpl; [|repeat split].
    unfold cpuTickDone.
    destruct (1 <? js_incr (cpuIntervals (listener w))); repeat split.
  - destruct (take_out _ (pending w)); [|discriminate].
    injection H as <-. destruct r; repeat split.
  - destruct (take_out _ (pending w)); [|discriminate].
    injection H as <-. destruct r; repeat split.
  - destruct (take_out _ (pending w)); [|discriminate].
    injection H as <-. destruct r as [v|e]; simpl; [|repeat split].
    unfold netTickDone.
    destruct (1 <? js_incr (networkIntervals (listener w))); repeat split.
  - destruct (take_out _ (pending w)); [|discriminate].
    injection H as <-. repeat split.
  - destruct (existsb _ (intervals w)); [|discriminate].
    injection H as <-. destruct cb; repeat split.
  - destruct (take_out _ (timeouts w)); [|discriminate].
    injection H as <-. destruct cb; repeat split.
  - unfold the_requestListener, requestListener in H. unfold is_counted.
    destruct (urlParse_pathname (url req)) as [p|];
      [|injection H as <-; repeat split].
    pose proof (dispatch_frame JSON_stringify ToString (listener w) p req res)
      as F.
    pose proof (dispatch_counts JSON_stringify ToString (listener w) p req res)
      as C.
    destruct (route (listener w) p req res) as [[[this' req'] res'] cmds].
    injection H as <-. cbn in F. cbv [listener_after fst] in C.
    assert (R : requestCount this' =
                if negb (is_route (apiPath (listener w)) p)
                then js_incr (requestCount (listener w))
                else requestCount (listener w)).
    { rewrite C. now destruct (is_route (apiPath (listener w)) p). }
    destruct F as [[F|F] [->| ->]]; simpl; rewrite R; rewrite F; simpl;
      repeat split.
Qed.

Lemma boot_config (a i : JsVal) (w0 : World) :
  boot' a i = Some w0 ->
  normalizeApiPath a = Some (apiPath (listener w0)) /\
  interval (listener w0) = normalizeInterval i /\
  requestCount (listener w0) = 0.
Proof.
  unfold boot, new_MetricsListener, constructor.
  destruct (normalizeApiPath a) as [p|]; [|discriminate].
  simpl. intros H. injection H as <-. repeat split.
Qed.

Lemma run_config (a i : JsVal) (w0 w : World) (trace : list Event) :
  boot' a i = Some w0 ->
  run' w0 trace = Some w ->
  normalizeApiPath a = Some (apiPath (listener w)) /\
  interval (listener w) = normalizeInterval i.
Proof.
  intros B R. destruct (boot_config a i w0 B) as (Hp & Hi & _).
  rewrite Hp, <- Hi. clear B Hp Hi.
  revert w0 R; induction trace as [|ev trace IH]; intros w0 R; simpl in R.
  - injection R as <-. split; reflexivity.
  - destruct (step' w0 ev) as [w1|] eqn:E; [|discriminate].
    destruct (step_listener w0 w1 ev E) as (<- & <- & _).
    now apply IH.
Qed.

(** The prefix and the interval are fixed at construction: whatever happens
    afterwards, they are the normalised constructor arguments. *)
Theorem configuration_is_fixed
    (a i : JsVal) (w0 w : World) (trace : list Event) :
  boot' a i = Some w0 ->
  run' w0 trace = Some w ->
  normalizeApiPath a = Some (apiPath (listener w)) /\
  interval (listener w) = normalizeInterval i.
Proof. apply run_config. Qed.

Lemma counted_run (trace : list Event) (w w' : World) (n : nat) :
  requestCount (listener w) = Z.min (Z.of_nat n) MAX_EXACT ->
  run' w trace = Some w' ->
  requestCount (listener w') =
  Z.min (Z.of_nat
           (n + counted_requests urlParse_pathname (apiPath (listener w)) trace))
        MAX_EXACT.
Proof.
  revert w n; induction trace as [|ev trace IH]; intros w n Hn R; simpl in R.
  - injection R as <-. simpl. now rewrite Nat.add_0_r.
  - destruct (step' w ev) as [w1|] eqn:E; [|discriminate].
    destruct (step_listener w w1 ev E) as (Hp & _ & Hc).
    destruct ev as [r|r now|r|nic r|nic r now| |cb|cb|req res];
      try (simpl counted_requests; rewrite <- Hp;
           apply (IH w1 n); [congruence | exact R]).
    simpl counted_requests.
    destruct (is_counted urlParse_pathname (apiPath (listener w)) req);
      rewrite <- Hp.
    + rewrite Nat.add_assoc. apply (IH w1 (n + 1)%nat); [|exact R].
      rewrite Hc, Hn, js_incr_min. f_equal. lia.
    + simpl. apply (IH w1 n); [congruence | exact R].
Qed.


(** The sample counter of each cell is the number of its successful
    samples so far, the seed call included (up to 2^53). *)
Theorem sample_counters_count_successes
    (a i : JsVal) (w0 w : World) (trace : list Event) :
  boot' a i = Some w0 ->
  run' w0 trace = Some w ->
  cpuIntervals (listener w) =
    Z.min (Z.of_nat (List.length (cpu_samples trace))) MAX_EXACT /\
  networkIntervals (listener w) =
    Z.min (Z.of_nat (List.length (net_samples trace))) MAX_EXACT.
Proof.
  intros B R.
  destruct (run_Inv urlParse_pathname JSON_stringify ToString
              trace [] [] w0 w
              (boot_Inv urlParse_pathname JSON_stringify ToString a i w0 B) R)
    as (Sh & _ & _).
  simpl in Sh. unfold Shape in Sh. tauto.
Qed.

End MoreLoopProperties.

(** ** The wiring of timers and calls *)

Lemma take_out_In {A : Type} (same : A -> bool) (l rest : list A) :
  take_out same l = Some rest ->
  exists x, same x = true /\ In x l /\ (forall y, In y rest -> In y l) /\
            forall f, count f l = ((if f x then 1 else 0) + count f rest)%nat.
Proof.
  revert rest; induction l as [|y l IH]; intros rest H; simpl in H.
  - discriminate.
  - destruct (same y) eqn:Sy.
    + injection H as <-. exists y. repeat split; auto using in_eq, in_cons.
    + destruct (take_out same l) as [rest'|]; [|discriminate].
      injection H as <-. destruct (IH rest' eq_refl) as (x & Hx & Hin & Hsub & Hc).
      exists x. split; [exact Hx|]. split; [now right|]. split.
      * intros z [->|Hz]; [now left | right; now apply Hsub].
      * intros f. simpl. rewrite (Hc f). lia.
Qed.

Lemma Forall_sub {A : Type} (P : A -> Prop) (l rest : list A) :
  (forall y, In y rest -> In y l) -> Forall P l -> Forall P rest.
Proof.
  intros Hsub H. rewrite Forall_forall in *. auto.
Qed.

Ltac wiring_counts Cnt :=
  pose proof (Cnt is_cpu_seed); pose proof (Cnt is_net_iface);
  pose proof (Cnt is_net_seed); clear Cnt; simpl in *.

Section WiringProperties.

Variable urlParse_pathname : string -> option string.
Variable JSON_stringify : JsVal -> option string.
Variable ToString : JsVal -> string.

Local Notation "'handle'" :=
  (requestListener urlParse_pathname JSON_stringify ToString).
Local Notation "'step''" := (step urlParse_pathname JSON_stringify ToString).
Local Notation "'run''" := (run urlParse_pathname JSON_stringify ToString).
Local Notation "'boot''" := (boot urlParse_pathname JSON_stringify ToString).

Lemma step_Wiring (resolved : list string) (w w' : World) (ev : Event) :
  Wiring resolved w ->
  step' w ev = Some w' ->
  Wiring (resolved ++ resolution_of ev) w'.
Proof.
  intros (W1 & W2 & W3 & W4 & W5 & W6 & W7 & W8) H.
  destruct ev as [r|r now|r|nic r|nic r now| |cb|cb|req res]; simpl in H;
    unfold settle in H.
  - (* the CPU seed settles *)
    destruct (take_out _ (pending w)) as [rest|] eqn:T; [|discriminate].
    injection H as <-.
    destruct (take_out_In _ _ _ T) as (x & Hx & Hin & Hsub & Cnt).
    apply Pending_eqb_eq in Hx. subst x. wiring_counts Cnt.
    rewrite app_nil_r.
    destruct r; unfold Wiring; simpl; repeat split; try lia;
      try assumption; try exact (Forall_sub _ _ _ Hsub W7);
      (constructor; [reflexivity || discriminate | assumption]).
  - (* a CPU tick settles *)
    destruct (take_out _ (pending w)) as [rest|] eqn:T; [|discriminate].
    injection H as <-.
    destruct (take_out_In _ _ _ T) as (x & Hx & Hin & Hsub & Cnt).
    apply Pending_eqb_eq in Hx. subst x. wiring_counts Cnt.
    rewrite app_nil_r.
    destruct r as [v|e]; unfold Wiring; simpl; unfold cpuTickDone;
      try destruct (1 <? js_incr (cpuIntervals (listener w)));
      simpl; repeat split; try lia;
      try assumption; exact (Forall_sub _ _ _ Hsub W7).
  - (* the interface resolution settles *)
    destruct (take_out _ (pending w)) as [rest|] eqn:T; [|discriminate].
    injection H as <-.
    destruct (take_out_In _ _ _ T) as (x & Hx & Hin & Hsub & Cnt).
    apply Pending_eqb_eq in Hx. subst x. wiring_counts Cnt.
    destruct r as [nic|e]; simpl.
    + assert (R0 : resolved = []) by (destruct resolved; [reflexivity | simpl in W2; lia]).
      subst resolved. simpl in *.
      unfold Wiring; simpl; repeat split; try lia; try assumption.
      * constructor.
        -- intros n Hn. now injection Hn as <-.
        -- apply (Forall_sub _ _ _ Hsub). revert W7. apply Forall_impl.
           intros p Hp n Hn. discriminate (Hp n Hn).
      * revert W8. apply Forall_impl.
        intros t Ht n Hn. discriminate (Ht n Hn).
    + rewrite app_nil_r.
      unfold Wiring; simpl; repeat split; try lia; try assumption.
      * constructor; [reflexivity | assumption].
      * exact (Forall_sub _ _ _ Hsub W7).
  - (* the network seed settles *)
    destruct (take_out _ (pending w)) as [rest|] eqn:T; [|discriminate].
    injection H as <-.
    destruct (take_out_In _ _ _ T) as (x & Hx & Hin & Hsub & Cnt).
    apply Pending_eqb_eq in Hx. subst x. wiring_counts Cnt.
    rewrite app_nil_r.
    assert (Rn : resolved = [nic]).
    { rewrite Forall_forall in W7. exact (W7 _ Hin nic eq_refl). }
    destruct r; unfold Wiring; simpl; repeat split; try lia;
      try assumption; try exact (Forall_sub _ _ _ Hsub W7);
      (constructor; [first [reflexivity
                           | intros n Hn; injection Hn as <-; exact Rn]
                    | assumption]).
  - (* a network tick settles *)
    destruct (take_out _ (pending w)) as [rest|] eqn:T; [|discriminate].
    injection H as <-.
    destruct (take_out_In _ _ _ T) as (x & Hx & Hin & Hsub & Cnt).
    apply Pending_eqb_eq in Hx. subst x. wiring_counts Cnt.
    rewrite app_nil_r.
    destruct r as [v|e]; unfold Wiring; simpl; unfold netTickDone;
      try destruct (1 <? js_incr (networkIntervals (listener w)));
      simpl; repeat split; try lia;
      try assumption; exact (Forall_sub _ _ _ Hsub W7).
  - (* the memory call settles *)
    destruct (take_out _ (pending w)) as [rest|] eqn:T; [|discriminate].
    injection H as <-.
    destruct (take_out_In _ _ _ T) as (x & Hx & Hin & Hsub & Cnt).
    apply Pending_eqb_eq in Hx. subst x. wiring_counts Cnt.
    rewrite app_nil_r.
    unfold Wiring; simpl; repeat split; try lia;
      try assumption; exact (Forall_sub _ _ _ Hsub W7).
  - (* an interval fires *)
    destruct (existsb (timer_is cb) (intervals w)) eqn:X; [|discriminate].
    injection H as <-. rewrite app_nil_r.
    destruct cb as [|nic|].
    + unfold Wiring; simpl; repeat split; try lia; try assumption.
      constructor; [discriminate | assumption].
    + apply existsb_exists in X as ([c ms] & Hin & Ht).
      unfold timer_is in Ht. apply TimerCb_eqb_eq in Ht. simpl in Ht. subst c.
      assert (Rn : resolved = [nic]).
      { rewrite Forall_forall in W8. exact (W8 _ Hin nic eq_refl). }
      unfold Wiring; simpl; repeat split; try lia; try assumption.
      constructor; [|assumption].
      intros n Hn. injection Hn as <-. exact Rn.
    + pose proof (existsb_count _ is_retry _ X (fun _ E => E)). lia.
  - (* a timeout fires *)
    destruct (take_out (timer_is cb) (timeouts w)) as [rest|] eqn:T;
      [|discriminate].
    injection H as <-. rewrite app_nil_r.
    destruct (take_out_In _ _ _ T) as (x & Hx & Hin & Hsub & Cnt).
    assert (Ex : x = (TNetRetry, 1000)).
    { rewrite Forall_forall in W6. now apply W6. }
    subst x. unfold timer_is in Hx. apply TimerCb_eqb_eq in Hx. simpl in Hx.
    subst cb. pose proof (Cnt is_retry) as Cr. simpl in Cr. clear Cnt.
    unfold Wiring; simpl; repeat split; try lia; try assumption.
    + exact (Forall_sub _ _ _ Hsub W6).
    + constructor; [discriminate | assumption].
  - (* a request arrives *)
    unfold the_requestListener, requestListener in H. rewrite app_nil_r.
    destruct (urlParse_pathname (url req)) as [p|];
      [|injection H as <-; unfold Wiring; repeat split; assumption].
    pose proof (dispatch_frame JSON_stringify ToString (listener w) p req res)
      as F.
    destruct (dispatch JSON_stringify ToString (listener w) p req res)
      as [[[this' req'] res'] cmds].
    injection H as <-. cbn in F.
    destruct F as [[->| ->] [->| ->]];
      unfold Wiring; simpl; repeat split; try lia; try assumption;
      (constructor; [discriminate | assumption]).
Qed.

Lemma run_Wiring (trace : list Event) (resolved : list string) (w w' : World) :
  Wiring resolved w ->
  run' w trace = Some w' ->
  Wiring (resolved ++ resolutions trace) w'.
Proof.
  revert resolved w; induction trace as [|ev trace IH]; intros resolved w I H.
  - simpl in *. injection H as <-. now rewrite app_nil_r.
  - simpl in H. destruct (step' w ev) as [w1|] eqn:E; [|discriminate].
    unfold resolutions. simpl. rewrite app_assoc.
    apply (IH _ w1); [|exact H]. now apply (step_Wiring _ w).
Qed.

Lemma boot_Wiring (a i : JsVal) (w0 : World) :
  boot' a i = Some w0 -> Wiring [] w0.
Proof.
  intros H.
  destruct (boot_world urlParse_pathname JSON_stringify ToString a i w0 H)
    as (p & ms & ->).
  unfold Wiring. simpl. repeat split; try constructor; try discriminate;
    constructor; try discriminate; constructor.
Qed.

Lemma count_zero_In {A : Type} (f : A -> bool) (l : list A) (x : A) :
  count f l = 0%nat -> In x l -> f x = false.
Proof.
  induction l as [|y l IH]; simpl; [contradiction|].
  intros H [->|Hin].
  - destruct (f x); [discriminate H | reflexivity].
  - apply IH; [|exact Hin]. destruct (f y); [discriminate H | exact H].
Qed.

(** Polling is never lost and never doubled.  At any moment the CPU cell
    is in exactly one of two places: its seed call is in flight, or its
    interval is running, once.  The network cell is in exactly one of four:
    the interface is being resolved, the retry is armed, the seed call is in
    flight, or its interval is running, once. *)
Theorem polling_is_never_lost_nor_doubled
    (a i : JsVal) (w0 w : World) (trace : list Event) :
  boot' a i = Some w0 ->
  run' w0 trace = Some w ->
  (count is_cpu_seed (pending w) + count is_cpu_timer (intervals w))%nat
    = 1%nat /\
  (count is_net_iface (pending w) + count is_retry (timeouts w)
   + count is_net_seed (pending w) + count is_net_timer (intervals w))%nat
    = 1%nat.
Proof.
  intros B R.
  destruct (run_Wiring trace [] w0 w (boot_Wiring a i w0 B) R)
    as (W1 & W2 & W3 & _).
  simpl in *. split; [exact W1 | lia].
Qed.

(** Every interval the listener has set is a sampling interval and was set
    with the configured delay (the normalised constructor argument) as the
    delay argument of [setInterval]; every timeout it has armed is the
    bootstrap retry, armed with 1000 as the delay argument of [setTimeout].
    This is about the arguments the code passes: the delay the runtime
    applies to an argument is not part of the model. *)
Theorem timers_carry_the_configured_delay
    (a i : JsVal) (w0 w : World) (trace : list Event) :
  boot' a i = Some w0 ->
  run' w0 trace = Some w ->
  (forall cb ms, In (cb, ms) (intervals w) ->
                 ms = normalizeInterval i /\ cb <> TNetRetry) /\
  (forall t, In t (timeouts w) -> t = (TNetRetry, 1000)).
Proof.
  intros B R.
  destruct (run_Wiring trace [] w0 w (boot_Wiring a i w0 B) R)
    as (_ & _ & _ & W4 & W5 & W6 & _).
  destruct (run_config urlParse_pathname JSON_stringify ToString
              a i w0 w trace B R) as [_ Hi].
  rewrite Forall_forall in W5, W6. split; [|exact W6].
  intros cb ms Hin. split.
  - rewrite <- Hi. exact (W5 _ Hin).
  - intros ->. pose proof (count_zero_In _ _ _ W4 Hin) as F. discriminate F.
Qed.

(** The default interface is resolved successfully at most once, and
    everything that samples the network afterwards (the seed call, the
    interval, each tick) samples that one interface. *)
Theorem interface_is_resolved_once
    (a i : JsVal) (w0 w : World) (trace : list Event) :
  boot' a i = Some w0 ->
  run' w0 trace = Some w ->
  (List.length (resolutions trace) <= 1)%nat /\
  (forall nic,
      In (PNetSeed nic) (pending w) \/
      In (PNetTick nic) (pending w) \/
      (exists ms, In (TNetTick nic, ms) (intervals w)) ->
      resolutions trace = [nic]).
Proof.
  intros B R.
  destruct (run_Wiring trace [] w0 w (boot_Wiring a i w0 B) R)
    as (_ & W2 & _ & _ & _ & _ & W7 & W8).
  simpl in *. split; [lia|].
  rewrite Forall_forall in W7, W8.
  intros nic [H | [H | [ms H]]].
  - exact (W7 _ H nic eq_refl).
  - exact (W7 _ H nic eq_refl).
  - exact (W8 _ H nic eq_refl).
Qed.

End WiringProperties.

(** ** Stamping *)

Lemma get_set_same (o : JsObj) (k : string) (x : JsVal) :
  get_prop (set_prop o k x) k = x.
Proof.
  induction o as [|[k0 v0] o IH]; simpl.
  - now rewrite String.eqb_refl.
  - destruct (String.eqb k0 k) eqn:E; simpl; now rewrite E.
Qed.

Lemma get_set_other (o : JsObj) (k k' : string) (x : JsVal) :
  k' <> k -> get_prop (set_prop o k x) k' = get_prop o k'.
Proof.
  intros N. induction o as [|[k0 v0] o IH]; simpl.
  - apply String.eqb_neq in N. rewrite String.eqb_sym in N. now rewrite N.
  - destruct (String.eqb k0 k) eqn:E; simpl.
    + apply String.eqb_eq in E. subst k0.
      assert (F : String.eqb k k' = false).
      { apply String.eqb_neq. intros ->. now elim N. }
      now rewrite F.
    + now rewrite IH.
Qed.

Lemma keys_set_prop (o : JsObj) (k : string) (x : JsVal) :
  map fst (set_prop o k x) =
  if existsb (fun k0 => String.eqb k0 k) (map fst o)
  then map fst o
  else (map fst o ++ [k])%list.
Proof.
  induction o as [|[k0 v0] o IH]; simpl; [reflexivity|].
  destruct (String.eqb k0 k) eqn:E; simpl; [reflexivity|].
  rewrite IH. now destruct (existsb _ (map fst o)).
Qed.

Lemma last_app_default {A : Type} (l1 l2 : list A) (d : A) :
  last (l1 ++ l2) d = last l2 (last l1 d).
Proof.
  revert d; induction l1 as [|x l1 IH]; intros d; [reflexivity|].
  change ((x :: l1) ++ l2)%list with (x :: (l1 ++ l2))%list.
  now rewrite !last_cons_default, IH.
Qed.

Section SamplingProperties.

Variable urlParse_pathname : string -> option string.
Variable JSON_stringify : JsVal -> option string.
Variable ToString : JsVal -> string.

Local Notation "'handle'" :=
  (requestListener urlParse_pathname JSON_stringify ToString).
Local Notation "'success'" := (successResponse JSON_stringify).
Local Notation "'failure'" := (errorResponse JSON_stringify).
Local Notation "'step''" := (step urlParse_pathname JSON_stringify ToString).
Local Notation "'run''" := (run urlParse_pathname JSON_stringify ToString).
Local Notation "'boot''" := (boot urlParse_pathname JSON_stringify ToString).

Lemma reached_Inv (a i : JsVal) (w0 w : World) (trace : list Event) :
  boot' a i = Some w0 ->
  run' w0 trace = Some w ->
  Inv (cpu_samples trace) (net_samples trace) w.
Proof.
  intros B R.
  exact (run_Inv urlParse_pathname JSON_stringify ToString trace [] [] w0 w
           (boot_Inv urlParse_pathname JSON_stringify ToString a i w0 B) R).
Qed.

(** How a successful tick is taken once the cell has a successful sample
    behind it. *)
Lemma adopting_cpu_tick (cpu net : list JsObj) (w w' : World)
    (v : JsObj) (now : float) :
  Inv cpu net w ->
  (1 <= List.length cpu)%nat ->
  step' w (CpuTickSettles (Resolved v) now) = Some w' ->
  lastCpuData (listener w') = stamped v now /\
  lastCpuError (listener w') = JNull /\
  apiPath (listener w') = apiPath (listener w).
Proof.
  intros ((_ & _ & _ & _ & _ & _ & _ & Ec & _) & _ & _) L H.
  simpl in H. unfold settle in H.
  destruct (take_out _ (pending w)); [|discriminate].
  injection H as <-. simpl. unfold cpuTickDone.
  rewrite Ec, js_incr_min.
  destruct (1 <? Z.min (Z.of_nat (S (List.length cpu))) MAX_EXACT) eqn:G.
  - repeat split.
  - apply Z.ltb_ge in G. pose proof MAX_EXACT_large. lia.
Qed.

Lemma adopting_net_tick (cpu net : list JsObj) (w w' : World)
    (nic : string) (v : JsObj) (now : float) :
  Inv cpu net w ->
  (1 <= List.length net)%nat ->
  step' w (NetTickSettles nic (Resolved v) now) = Some w' ->
  lastNetworkData (listener w') = stamped v now /\
  lastNetworkError (listener w') = JNull /\
  apiPath (listener w') = apiPath (listener w).
Proof.
  intros ((_ & _ & _ & _ & _ & _ & _ & _ & En) & _ & _) L H.
  simpl in H. unfold settle in H.
  destruct (take_out _ (pending w)); [|discriminate].
  injection H as <-. simpl. unfold netTickDone.
  rewrite En, js_incr_min.
  destruct (1 <? Z.min (Z.of_nat (S (List.length net))) MAX_EXACT) eqn:G.
  - repeat split.
  - apply Z.ltb_ge in G. pose proof MAX_EXACT_large. lia.
Qed.

(** Once a cell has one successful sample behind it, every further
    successful tick is adopted: the cache becomes that sample with its
    capture time written into dateCaptured (replacing a dateCaptured the
    sample may have carried, adding one otherwise), every other property is
    as sampled, and the cell's lastError is cleared. *)
Theorem later_samples_are_adopted
    (a i : JsVal) (w0 w : World) (trace : list Event) :
  boot' a i = Some w0 ->
  run' w0 trace = Some w ->
  (forall v now w',
      (1 <= List.length (cpu_samples trace))%nat ->
      step' w (CpuTickSettles (Resolved v) now) = Some w' ->
      let data := lastCpuData (listener w') in
      get_prop data "dateCaptured" = JNum now /\
      (forall k, k <> "dateCaptured" -> get_prop data k = get_prop v k) /\
      (List.length v <= List.length data <= List.length v + 1)%nat /\
      lastCpuError (listener w') = JNull) /\
  (forall nic v now w',
      (1 <= List.length (net_samples trace))%nat ->
      step' w (NetTickSettles nic (Resolved v) now) = Some w' ->
      let data := lastNetworkData (listener w') in
      get_prop data "dateCaptured" = JNum now /\
      (forall k, k <> "dateCaptured" -> get_prop data k = get_prop v k) /\
      (List.length v <= List.length data <= List.length v + 1)%nat /\
      lastNetworkError (listener w') = JNull).
Proof.
  intros B R. pose proof (reached_Inv a i w0 w trace B R) as I.
  assert (K : forall v now,
             (List.length v <= List.length (stamped v now)
              <= List.length v + 1)%nat).
  { intros v now. rewrite <- (length_map fst (stamped v now)).
    unfold stamped. rewrite keys_set_prop.
    destruct (existsb _ (map fst v));
      rewrite ?length_app, length_map; simpl; lia. }
  split.
  - intros v now w' L H.
    destruct (adopting_cpu_tick _ _ w w' v now I L H) as (-> & -> & _).
    cbv zeta. unfold stamped at 1 2.
    split; [apply get_set_same|]. split; [|split; [apply K | reflexivity]].
    intros k N. now apply get_set_other.
  - intros nic v now w' L H.
    destruct (adopting_net_tick _ _ w w' nic v now I L H) as (-> & -> & _).
    cbv zeta. unfold stamped at 1 2.
    split; [apply get_set_same|]. split; [|split; [apply K | reflexivity]].
    intros k N. now apply get_set_other.
Qed.

(** What a request sees right after a CPU call settles: after an adopted
    sample /cpu answers 200 with that stamped sample, after a rejection with
    a truthy reason it answers 500 with that reason; and /network answers
    200 with the stamped sample right after the network cell adopts one. *)
Theorem settled_sample_is_what_is_served
    (a i : JsVal) (w0 w : World) (trace : list Event)
    (req : Request) (res : Response) :
  boot' a i = Some w0 ->
  run' w0 trace = Some w ->
  (forall v now w',
      (1 <= List.length (cpu_samples trace))%nat ->
      step' w (CpuTickSettles (Resolved v) now) = Some w' ->
      urlParse_pathname (url req) = Some (apiPath (listener w') ++ "/cpu") ->
      handle (listener w') req res =
      Some (listener w', claimed req, success res (JObj (stamped v now)), []))
  /\
  (forall e now w',
      truthy e = true ->
      step' w (CpuTickSettles (Rejected e) now) = Some w' ->
      urlParse_pathname (url req) = Some (apiPath (listener w') ++ "/cpu") ->
      handle (listener w') req res =
      Some (listener w', claimed req, failure res e, [])) /\
  (forall nic v now w',
      (1 <= List.length (net_samples trace))%nat ->
      step' w (NetTickSettles nic (Resolved v) now) = Some w' ->
      urlParse_pathname (url req)
        = Some (apiPath (listener w') ++ "/network") ->
      handle (listener w') req res =
      Some (listener w', claimed req, success res (JObj (stamped v now)), [])).
Proof.
  intros B R. pose proof (reached_Inv a i w0 w trace B R) as I.
  split; [|split].
  - intros v now w' L H E.
    destruct (adopting_cpu_tick _ _ w w' v now I L H) as (Hd & He & _).
    rewrite (cpu_route urlParse_pathname JSON_stringify ToString _ req res E), He, Hd. reflexivity.
  - intros e now w' T H E.
    rewrite (cpu_route urlParse_pathname JSON_stringify ToString _ req res E).
    simpl in H. unfold settle in H.
    destruct (take_out _ (pending w)); [|discriminate].
    injection H as <-. simpl. now rewrite T.
  - intros nic v now w' L H E.
    destruct (adopting_net_tick _ _ w w' nic v now I L H) as (Hd & He & _).
    rewrite (network_route urlParse_pathname JSON_stringify ToString _ req res E), He, Hd. reflexivity.
Qed.

(** Last to complete wins: from its second successful sample on, a cell
    caches the successful sample that settled most recently, whatever the
    order the ticks were issued in. *)
Theorem cache_holds_the_latest_sample
    (a i : JsVal) (w0 w : World) (trace : list Event) :
  boot' a i = Some w0 ->
  run' w0 trace = Some w ->
  ((2 <= List.length (cpu_samples trace))%nat ->
     exists now,
       lastCpuData (listener w) = stamped (last (cpu_samples trace) []) now) /\
  ((2 <= List.length (net_samples trace))%nat ->
     exists now,
       lastNetworkData (listener w)
       = stamped (last (net_samples trace) []) now).
Proof.
  intros B R.
  destruct (reached_Inv a i w0 w trace B R) as (_ & [_ Hc] & [_ Hn]).
  split; assumption.
Qed.

(** ** Where the errors come from, and how long they stay *)

Lemma step_errors (w w' : World) (ev : Event) :
  step' w ev = Some w' ->
  (lastCpuError (listener w') = lastCpuError (listener w) \/
   lastCpuError (listener w') = JNull \/
   In (lastCpuError (listener w')) (cpu_rejection_of ev)) /\
  (lastNetworkError (listener w') = lastNetworkError (listener w) \/
   lastNetworkError (listener w') = JNull \/
   In (lastNetworkError (listener w')) (net_rejection_of ev)).
Proof.
  intros H.
  destruct ev as [r|r now|r|nic r|nic r now| |cb|cb|req res]; simpl in H;
    unfold settle in H.
  - destruct (take_out _ (pending w)); [|discriminate].
    injection H as <-. destruct r; simpl; auto.
  - destruct (take_out _ (pending w)); [|discriminate].
    injection H as <-. destruct r as [v|e]; simpl; [|auto].
    unfold cpuTickDone.
    destruct (1 <? js_incr (cpuIntervals (listener w))); simpl; auto.
  - destruct (take_out _ (pending w)); [|discriminate].
    injection H as <-. destruct r; simpl; auto.
  - destruct (take_out _ (pending w)); [|discriminate].
    injection H as <-. destruct r; simpl; auto.
  - destruct (take_out _ (pending w)); [|discriminate].
    injection H as <-. destruct r as [v|e]; simpl; [|auto].
    unfold netTickDone.
    destruct (1 <? js_incr (networkIntervals (listener w))); simpl; auto.
  - destruct (take_out _ (pending w)); [|discriminate].
    injection H as <-. simpl; auto.
  - destruct (existsb _ (intervals w)); [|discriminate].
    injection H as <-. destruct cb; simpl; auto.
  - destruct (take_out _ (timeouts w)); [|discriminate].
    injection H as <-. destruct cb; simpl; auto.
  - unfold the_requestListener, requestListener in H.
    destruct (urlParse_pathname (url req)) as [p|];
      [|injection H as <-; simpl; auto].
    pose proof (dispatch_frame JSON_stringify ToString (listener w) p req res)
      as F.
    destruct (dispatch JSON_stringify ToString (listener w) p req res)
      as [[[this' req'] res'] cmds].
    injection H as <-. cbn in F.
    destruct F as [[->| ->] [->| ->]]; simpl; auto.
Qed.

Lemma run_errors (trace : list Event) (w w' : World) :
  run' w trace = Some w' ->
  (lastCpuError (listener w') = lastCpuError (listener w) \/
   lastCpuError (listener w') = JNull \/
   In (lastCpuError (listener w')) (cpu_rejections trace)) /\
  (lastNetworkError (listener w') = lastNetworkError (listener w) \/
   lastNetworkError (listener w') = JNull \/
   In (lastNetworkError (listener w')) (net_rejections trace)).
Proof.
  revert w; induction trace as [|ev trace IH]; intros w R; simpl in R.
  - injection R as <-. auto.
  - destruct (step' w ev) as [w1|] eqn:E; [|discriminate].
    destruct (IH w1 R) as [Ic In_]. destruct (step_errors w w1 ev E) as [Sc Sn].
    unfold cpu_rejections, net_rejections. simpl flat_map.
    split.
    + destruct Ic as [K|[K|K]]; [rewrite K | auto |].
      * destruct Sc as [S1|[S1|S1]]; auto.
        right; right. apply in_or_app. now left.
      * right; right. apply in_or_app. now right.
    + destruct In_ as [K|[K|K]]; [rewrite K | auto |].
      * destruct Sn as [S1|[S1|S1]]; auto.
        right; right. apply in_or_app. now left.
      * right; right. apply in_or_app. now right.
Qed.

(** A cell's lastError is null or the reason of a rejection of that cell
    that has a callback: for the CPU cell a rejected [currentLoad()], for
    the network cell a rejected interface resolution or seed call.  The
    reason of a rejected network tick never gets there, and no request,
    timer or call of the other cell writes it. *)
Theorem errors_come_from_rejections
    (a i : JsVal) (w0 w : World) (trace : list Event) :
  boot' a i = Some w0 ->
  run' w0 trace = Some w ->
  (lastCpuError (listener w) = JNull \/
   In (lastCpuError (listener w)) (cpu_rejections trace)) /\
  (lastNetworkError (listener w) = JNull \/
   In (lastNetworkError (listener w)) (net_rejections trace)).
Proof.
  intros B R.
  destruct (boot_world urlParse_pathname JSON_stringify ToString a i w0 B)
    as (p & ms & ->).
  destruct (run_errors trace _ w R) as [Hc Hn]. simpl in Hc, Hn.
  split; tauto.
Qed.

Lemma step_error_before_adoption
    (cpu net : list JsObj) (w w' : World) (ev : Event) :
  Inv cpu net w ->
  step' w ev = Some w' ->
  ((List.length cpu + List.length (cpu_sample_of ev) <= 1)%nat ->
     lastCpuError (listener w') =
     last (cpu_rejection_of ev) (lastCpuError (listener w))) /\
  ((List.length net + List.length (net_sample_of ev) <= 1)%nat ->
     lastNetworkError (listener w') =
     last (net_rejection_of ev) (lastNetworkError (listener w))).
Proof.
  intros ((_ & _ & _ & _ & _ & _ & _ & Ec & En) & _ & _) H.
  pose proof MAX_EXACT_large as M.
  destruct ev as [r|r now|r|nic r|nic r now| |cb|cb|req res]; simpl in H;
    unfold settle in H.
  - destruct (take_out _ (pending w)); [|discriminate].
    injection H as <-. destruct r; simpl; auto.
  - destruct (take_out _ (pending w)); [|discriminate].
    injection H as <-. destruct r as [v|e]; simpl; [|auto].
    unfold cpuTickDone. rewrite Ec, js_incr_min.
    destruct (1 <? Z.min (Z.of_nat (S (List.length cpu))) MAX_EXACT) eqn:G;
      simpl; [|auto].
    apply Z.ltb_lt in G. split; [lia | auto].
  - destruct (take_out _ (pending w)); [|discriminate].
    injection H as <-. destruct r; simpl; auto.
  - destruct (take_out _ (pending w)); [|discriminate].
    injection H as <-. destruct r; simpl; auto.
  - destruct (take_out _ (pending w)); [|discriminate].
    injection H as <-. destruct r as [v|e]; simpl; [|auto].
    unfold netTickDone. rewrite En, js_incr_min.
    destruct (1 <? Z.min (Z.of_nat (S (List.length net))) MAX_EXACT) eqn:G;
      simpl; [|auto].
    apply Z.ltb_lt in G. split; [auto | lia].
  - destruct (take_out _ (pending w)); [|discriminate].
    injection H as <-. simpl; auto.
  - destruct (existsb _ (intervals w)); [|discriminate].
    injection H as <-. destruct cb; simpl; auto.
  - destruct (take_out _ (timeouts w)); [|discriminate].
    injection H as <-. destruct cb; simpl; auto.
  - unfold the_requestListener, requestListener in H.
    destruct (urlParse_pathname (url req)) as [p|];
      [|injection H as <-; simpl; auto].
    pose proof (dispatch_frame JSON_stringify ToString (listener w) p req res)
      as F.
    destruct (dispatch JSON_stringify ToString (listener w) p req res)
      as [[[this' req'] res'] cmds].
    injection H as <-. cbn in F.
    destruct F as [[->| ->] [->| ->]]; simpl; auto.
Qed.

Lemma run_error_before_adoption
    (trace : list Event) (cpu net : list JsObj) (w w' : World) :
  Inv cpu net w ->
  run' w trace = Some w' ->
  ((List.length cpu + List.length (cpu_samples trace) <= 1)%nat ->
     lastCpuError (listener w') =
     last (cpu_rejections trace) (lastCpuError (listener w))) /\
  ((List.length net + List.length (net_samples trace) <= 1)%nat ->
     lastNetworkError (listener w') =
     last (net_rejections trace) (lastNetworkError (listener w))).
Proof.
  revert cpu net w; induction trace as [|ev trace IH]; intros cpu net w I R;
    simpl in R.
  - injection R as <-. split; reflexivity.
  - destruct (step' w ev) as [w1|] eqn:E; [|discriminate].
    pose proof (step_Inv urlParse_pathname JSON_stringify ToString
                  cpu net w w1 ev I E) as I1.
    destruct (IH _ _ w1 I1 R) as [IHc IHn].
    destruct (step_error_before_adoption cpu net w w1 ev I E) as [Sc Sn].
    unfold cpu_samples, net_samples, cpu_rejections, net_rejections.
    simpl flat_map. rewrite !length_app, !last_app_default.
    rewrite length_app in IHc, IHn.
    split; intros L.
    + rewrite <- Sc by lia. apply IHc. unfold cpu_samples. lia.
    + rewrite <- Sn by lia. apply IHn. unfold net_samples. lia.
Qed.

(** Until a cell has adopted a sample (that is, while it has at most one
    successful sample) nothing clears its lastError: it is the reason of
    the cell's latest recorded rejection, null if there was none.  In
    particular a first successful sample leaves an earlier error in
    place. *)
Theorem error_outlives_first_sample
    (a i : JsVal) (w0 w : World) (trace : list Event) :
  boot' a i = Some w0 ->
  run' w0 trace = Some w ->
  ((List.length (cpu_samples trace) <= 1)%nat ->
     lastCpuError (listener w) = last (cpu_rejections trace) JNull) /\
  ((List.length (net_samples trace) <= 1)%nat ->
     lastNetworkError (listener w) = last (net_rejections trace) JNull).
Proof.
  intros B R.
  pose proof (boot_Inv urlParse_pathname JSON_stringify ToString a i w0 B) as I.
  destruct (run_error_before_adoption trace [] [] w0 w I R) as [Hc Hn].
  destruct (boot_world urlParse_pathname JSON_stringify ToString a i w0 B)
    as (p & ms & ->).
  simpl in Hc, Hn. split; assumption.
Qed.

(** ** The total the listener reports *)

(** After any run, /requests/total answers 200 with the metric object whose
    number is the decimal rendering of the count of requests so far that
    had a path and were not for one of the seven routes (this request is
    not among them);
    the rendering reads back as that count; the instance is left as it
    is. *)
Theorem requests_total_reports_the_count
    (a i : JsVal) (w0 w : World) (trace : list Event)
    (req : Request) (res : Response) :
  boot' a i = Some w0 ->
  run' w0 trace = Some w ->
  urlParse_pathname (url req)
    = Some (apiPath (listener w) ++ "/requests/total") ->
  let n := Z.min (Z.of_nat (counted_requests urlParse_pathname
                              (apiPath (listener w0)) trace))
                 MAX_EXACT in
  handle (listener w) req res =
    Some (listener w, claimed req,
          success res (JStr (metric_json (counter_to_string n))), []) /\
  counter_of_string (counter_to_string n) = Some n.
Proof.
  intros B R E n. split; [|apply counter_round_trip].
  rewrite (total_route urlParse_pathname JSON_stringify ToString _ req res E). subst n.
  destruct (boot_config urlParse_pathname JSON_stringify ToString a i w0 B)
    as (_ & _ & H0).
  rewrite (counted_run urlParse_pathname JSON_stringify ToString
             trace w0 w 0); [reflexivity | | exact R].
  rewrite H0. pose proof MAX_EXACT_large. lia.
Qed.

End SamplingProperties.

(** ** The further properties at work *)

Example run_five_requests :
  run pathname_of_target stringify_stub tostring_stub
      default_world five_requests
  = Some after_five_requests.
Proof. reflexivity. Qed.

Example run_third_tick_in_flight :
  run pathname_of_target stringify_stub tostring_stub
      default_world third_tick_in_flight
  = Some with_third_tick_in_flight.
Proof. reflexivity. Qed.

Lemma interval_is_positive_witness :
  1 <= normalizeInterval (JNum 0.5%float) /\
  normalizeInterval (JNum 0.5%float) = DEFAULT_INTERVAL /\
  normalizeInterval (JNum 250%float) = 250 /\
  normalizeInterval (JNum (-3)%float) = DEFAULT_INTERVAL.
Proof.
  destruct (interval_is_positive (JNum 0.5%float)) as (H1 & _ & H3 & _).
  destruct (interval_is_positive (JNum 250%float)) as (_ & _ & _ & H4).
  destruct (interval_is_positive (JNum (-3)%float)) as (_ & _ & _ & H5).
  split; [exact H1|]. split; [apply H3; reflexivity|].
  split; [exact (H4 _ eq_refl eq_refl) | exact (H5 _ eq_refl eq_refl)].
Defined.

Lemma construction_fails_iff_witness :
  new_MetricsListener pathname_of_target stringify_stub tostring_stub
    (JNum 5%float) JUndefined = None.
Proof.
  apply (proj2 (construction_fails_iff
                  pathname_of_target stringify_stub tostring_stub
                  (JNum 5%float) JUndefined)).
  split; [reflexivity | discriminate].
Defined.

Lemma configuration_is_fixed_witness :
  normalizeApiPath JUndefined
    = Some (apiPath (listener after_one_sample_each)) /\
  interval (listener after_one_sample_each) = normalizeInterval JUndefined.
Proof.
  exact (configuration_is_fixed
           pathname_of_target stringify_stub tostring_stub
           JUndefined JUndefined default_world after_one_sample_each
           one_sample_each eq_refl eq_refl).
Defined.


Lemma sample_counters_count_successes_witness :
  cpuIntervals (listener after_two_samples_each) = 2 /\
  networkIntervals (listener after_two_samples_each) = 2.
Proof.
  exact (sample_counters_count_successes
           pathname_of_target stringify_stub tostring_stub
           JUndefined JUndefined default_world after_two_samples_each
           two_samples_each eq_refl eq_refl).
Defined.

Lemma polling_is_never_lost_nor_doubled_witness :
  (count is_cpu_seed (pending with_third_tick_in_flight)
   + count is_cpu_timer (intervals with_third_tick_in_flight))%nat = 1%nat /\
  (count is_net_iface (pending with_third_tick_in_flight)
   + count is_retry (timeouts with_third_tick_in_flight)
   + count is_net_seed (pending with_third_tick_in_flight)
   + count is_net_timer (intervals with_third_tick_in_flight))%nat = 1%nat.
Proof.
  exact (polling_is_never_lost_nor_doubled
           pathname_of_target stringify_stub tostring_stub
           JUndefined JUndefined default_world with_third_tick_in_flight
           third_tick_in_flight eq_refl eq_refl).
Defined.

Lemma timers_carry_the_configured_delay_witness :
  (forall cb ms,
      In (cb, ms) (intervals after_two_samples_each) ->
      ms = normalizeInterval (JNum 0%float) /\ cb <> TNetRetry) /\
  (forall t, In t (timeouts after_two_samples_each) -> t = (TNetRetry, 1000)).
Proof.
  exact (timers_carry_the_configured_delay
           pathname_of_target stringify_stub tostring_stub
           JUndefined (JNum 0%float) default_world after_two_samples_each
           two_samples_each eq_refl eq_refl).
Defined.

Lemma interface_is_resolved_once_witness :
  (List.length (resolutions two_samples_each) <= 1)%nat /\
  (forall nic,
      In (PNetSeed nic) (pending after_two_samples_each) \/
      In (PNetTick nic) (pending after_two_samples_each) \/
      (exists ms, In (TNetTick nic, ms) (intervals after_two_samples_each)) ->
      resolutions two_samples_each = [nic]).
Proof.
  exact (interface_is_resolved_once
           pathname_of_target stringify_stub tostring_stub
           JUndefined JUndefined default_world after_two_samples_each
           two_samples_each eq_refl eq_refl).
Defined.

(** The third CPU sample is adopted; its own dateCaptured is replaced. *)
Lemma later_samples_are_adopted_witness :
  let data := stamped third_sample 1700000005%float in
  get_prop data "dateCaptured" = JNum 1700000005%float /\
  (forall k, k <> "dateCaptured" -> get_prop data k = get_prop third_sample k) /\
  (List.length third_sample <= List.length data
   <= List.length third_sample + 1)%nat /\
  JNull = JNull.
Proof.
  refine (proj1 (later_samples_are_adopted
                   pathname_of_target stringify_stub tostring_stub
                   JUndefined JUndefined default_world
                   with_third_tick_in_flight third_tick_in_flight
                   eq_refl eq_refl)
            third_sample 1700000005%float
            (mkWorld
               (mkListener "/metrics" 1000 0
                  (stamped third_sample 1700000005%float)
                  (lastNetworkData (listener after_two_samples_each))
                  JNull JNull 3 2)
               [] (intervals after_two_samples_each) [])
            _ eq_refl).
  simpl. lia.
Defined.

(** The third CPU tick is rejected instead: /metrics/cpu answers 500. *)
Lemma settled_sample_is_what_is_served_witness :
  let this :=
    set_lastCpuError (JStr "EIO") (listener after_two_samples_each) in
  requestListener pathname_of_target stringify_stub tostring_stub
    this (mkRequest "/metrics/cpu" JUndefined) [] =
  Some (this, claimed (mkRequest "/metrics/cpu" JUndefined),
        errorResponse stringify_stub [] (JStr "EIO"), []).
Proof.
  exact (proj1 (proj2 (settled_sample_is_what_is_served
                         pathname_of_target stringify_stub tostring_stub
                         JUndefined JUndefined default_world
                         with_third_tick_in_flight third_tick_in_flight
                         (mkRequest "/metrics/cpu" JUndefined) []
                         eq_refl eq_refl))
           (JStr "EIO") 1700000005%float
           (mkWorld
              (set_lastCpuError (JStr "EIO") (listener after_two_samples_each))
              [] (intervals after_two_samples_each) [])
           eq_refl eq_refl eq_refl).
Defined.

Lemma errors_come_from_rejections_witness :
  (JStr "EPERM" = JNull \/ In (JStr "EPERM") (cpu_rejections one_sample_each)) /\
  (JStr "EIO" = JNull \/ In (JStr "EIO") (net_rejections one_sample_each)).
Proof.
  exact (errors_come_from_rejections
           pathname_of_target stringify_stub tostring_stub
           JUndefined JUndefined default_world after_one_sample_each
           one_sample_each eq_refl eq_refl).
Defined.

(** In [one_sample_each] the network seed call is rejected and the first
    network tick then succeeds: the error is still there. *)
Lemma error_outlives_first_sample_witness :
  lastCpuError (listener after_one_sample_each) = JStr "EPERM" /\
  lastNetworkError (listener after_one_sample_each) = JStr "EIO".
Proof.
  destruct (error_outlives_first_sample
              pathname_of_target stringify_stub tostring_stub
              JUndefined JUndefined default_world after_one_sample_each
              one_sample_each eq_refl eq_refl) as [Hc Hn].
  split; [apply Hc | apply Hn]; simpl; lia.
Defined.

Lemma requests_total_reports_the_count_witness :
  requestListener pathname_of_target stringify_stub tostring_stub
    (listener after_five_requests)
    (mkRequest "/metrics/requests/total" JUndefined) [] =
  Some (listener after_five_requests,
        claimed (mkRequest "/metrics/requests/total" JUndefined),
        [SetStatusCode 200; SetHeader "Content-Type" "application/json";
         End (Some (metric_json "2"))], []) /\
  counter_of_string "2" = Some 2.
Proof.
  exact (requests_total_reports_the_count
           pathname_of_target stringify_stub tostring_stub
           JUndefined JUndefined default_world after_five_requests
           five_requests (mkRequest "/metrics/requests/total" JUndefined) []
           eq_refl eq_refl eq_refl).
Defined.

Lemma cache_holds_the_latest_sample_witness :
  (exists now,
      lastCpuData (listener after_two_samples_each)
      = stamped [("currentload", JNum 2%float)] now) /\
  (exists now,
      lastNetworkData (listener after_two_samples_each)
      = stamped [("rx", JNum 20%float)] now).
Proof.
  destruct (cache_holds_the_latest_sample
              pathname_of_target stringify_stub tostring_stub
              JUndefined JUndefined default_world after_two_samples_each
              two_samples_each eq_refl eq_refl) as [Hc Hn].
  split; [apply Hc | apply Hn]; simpl; lia.
Defined.

(** The memory route, and the two ways its call can settle. *)
Lemma memory_route_defers_witness :
  requestListener pathname_of_target stringify_stub tostring_stub
    default_listener (mkRequest "/metrics/memory" JUndefined) [] =
  Some (default_listener, claimed (mkRequest "/metrics/memory" JUndefined),
        [], [Invoke PMem]) /\
  (forall memStats now,
      memDone stringify_stub [] (Resolved memStats) now =
      successResponse stringify_stub [] (JObj (stamped memStats now))) /\
  (forall error now,
      memDone stringify_stub [] (Rejected error) now =
      errorResponse stringify_stub [] error).
Proof.
  exact (memory_route_defers
           pathname_of_target stringify_stub tostring_stub
           default_listener (mkRequest "/metrics/memory" JUndefined) []
           eq_refl).
Defined.
